(** * Rhodium daughterboard controller: initialisation

    A shallow embedding of [host/lib/usrp/dboard/rhodium/rhodium_radio_ctrl_init.cpp]:
    the default initialisation ([_init_defaults]), the peripheral bring-up
    ([_init_peripherals]), the property-tree wiring ([_init_frontend_subtree],
    [_init_prop_tree]) and the remote sensor discovery ([_init_mpm_sensors]).

    Conventions.
    - [double] is a binary64 float, [size_t] an unsigned 64-bit integer and
      [int] a signed 32-bit integer (LP64); both integers are carried by [Z]
      with the wrap-around written out.
    - Side effects are explicit: a computation is a function from a state to
      an outcome (a value or a C++ exception) and a new state.  A thrown
      exception keeps the state reached when it was thrown.
    - Methods of the controller that live in other translation units, and the
      chip drivers, are reached through [invoke]: the call is appended to a
      ghost [trace] and answered by the [handler] of the [collaborators].
    - Logging macros ([UHD_LOG_TRACE], [UHD_LOG_DEBUG]) have no counterpart. *)

From Stdlib Require Import ZArith String Ascii List Floats DecimalString DecimalNat Lia.
From stdpp Require Import base option gmap strings list.

Local Open Scope string_scope.
Local Open Scope list_scope.

(** ** Machine types *)

Abbreviation double := float.

Definition to_size_t (z : Z) : Z := (z mod 2 ^ 64)%Z.
Definition to_int (z : Z) : Z := ((z + 2 ^ 31) mod 2 ^ 32 - 2 ^ 31)%Z.
Definition sizeof_uint64_t : Z := 8.
Definition sizeof_int16_t : Z := 2.

(** [std::to_string] on a [size_t] channel index. *)
Definition to_string (n : nat) : string := NilEmpty.string_of_uint (Nat.to_uint n).

(** [uhd::direction_t], by the two directions the controller wires. *)
Inductive direction_t := RX_DIRECTION | TX_DIRECTION.

#[global] Instance direction_t_eq_dec : EqDecision direction_t.
Proof. solve_decision. Defined.

#[global] Instance direction_t_countable : Countable direction_t.
Proof.
  refine (inj_countable' (λ d, match d with RX_DIRECTION => false | TX_DIRECTION => true end)
                         (λ b : bool, if b then TX_DIRECTION else RX_DIRECTION) _).
  by intros [].
Defined.

(** ** Paths *)

Abbreviation fs_path := (list string).

(** Modelled from the spec: [uhd::fs_path] and its [operator/]
    (property_tree.cpp is not among the sources).  A path is "an ordered
    sequence of path segments, case-sensitive, /-joined": [lhs </> rhs] adds
    one segment, and a literal of the source that holds slashes, such as
    ["freq/range"], is written segment by segment. *)
Definition fs_path_div (lhs : fs_path) (rhs : string) : fs_path := lhs ++ [rhs].
Infix "</>" := fs_path_div (at level 40, left associativity).

(** ** Property values *)

Record range_t := { start : double; stop : double; step : double }.
Abbreviation meta_range_t := (list range_t).

(** The constructor [meta_range_t(start, stop, step)]: one range. *)
Definition meta_range (start stop step : double) : meta_range_t :=
  [ {| start := start; stop := stop; step := step |} ].

Abbreviation sensor_map_t := (list (string * string)).

(** [sensor_value_t], by the two constructors the controller uses: the
    boolean sensor and the sensor rebuilt from a remote string map. *)
Inductive sensor_value_t :=
| sensor_bool (name : string) (value : bool) (utrue ufalse : string)
| sensor_of_map (m : sensor_map_t).

(** The types [T] of the [property<T>] nodes and of the collaborators' results. *)
Inductive ty :=
| TUnit | TBool | TInt | TSizeT | TDouble | TString | TStrings
| TRange | TSensor | TSensorMap | TDeviceAddr | TEepromMap.

Definition denote (T : ty) : Type :=
  match T with
  | TUnit => unit
  | TBool => bool
  | TInt => Z
  | TSizeT => Z
  | TDouble => double
  | TString => string
  | TStrings => list string
  | TRange => meta_range_t
  | TSensor => sensor_value_t
  | TSensorMap => sensor_map_t
  | TDeviceAddr => list (string * string)
  | TEepromMap => list (string * list Z)
  end.

Definition default_of (T : ty) : denote T :=
  match T with
  | TUnit => tt
  | TBool => false
  | TInt => 0%Z
  | TSizeT => 0%Z
  | TDouble => 0%float
  | TString => ""
  | TStrings => []
  | TRange => []
  | TSensor => sensor_of_map []
  | TSensorMap => []
  | TDeviceAddr => []
  | TEepromMap => []
  end.

(** ** Exceptions and outcomes *)

Inductive exception :=
| runtime_error (what : string)
| type_error (what : string)
| NoSuchPathError (path : fs_path)
| CommunicationError (what : string).

Inductive outcome (A : Type) :=
| Ok (a : A)
| Throw (e : exception).
Arguments Ok {A} a.
Arguments Throw {A} e.

Definition outcome_map {A B} (f : A → B) (r : outcome A) : outcome B :=
  match r with
  | Ok a => Ok (f a)
  | Throw e => Throw e
  end.

(** State and exception monad over a state [St]. *)
Definition SE (St A : Type) : Type := St → outcome A * St.

Definition ret {St A} (a : A) : SE St A := λ s, (Ok a, s).
Definition throw {St A} (e : exception) : SE St A := λ s, (Throw e, s).
Definition bind {St A B} (m : SE St A) (k : A → SE St B) : SE St B :=
  λ s, match m s with
       | (Ok a, s') => k a s'
       | (Throw e, s') => (Throw e, s')
       end.
Definition gets {St A} (f : St → A) : SE St A := λ s, (Ok (f s), s).
Definition modify {St} (f : St → St) : SE St unit := λ s, (Ok tt, f s).

Declare Scope se_scope.
Delimit Scope se_scope with se.
Notation "x <- m ;; k" := (bind m (λ x, k))
  (at level 100, m at next level, right associativity) : se_scope.
Notation "m ;; k" := (bind m (λ _, k))
  (at level 100, right associativity) : se_scope.
Local Open Scope se_scope.

(** [for (size_t chan = first; chan < first + count; chan++) body(chan)]. *)
Fixpoint for_chan {St} (count : nat) (first : nat) (body : nat → SE St unit) : SE St unit :=
  match count with
  | O => ret tt
  | S k => body first ;; for_chan k (S first) body
  end.

(** [for (const auto &x : l) body(x)]. *)
Fixpoint for_each {St A} (l : list A) (body : A → SE St unit) : SE St unit :=
  match l with
  | [] => ret tt
  | x :: l' => body x ;; for_each l' body
  end.

(** ** The base class [radio_ctrl_impl] *)

(** Modelled from the spec: the base-class setters and getters of
    [radio_ctrl_impl] (radio_ctrl_impl.cpp is not among the sources).  The
    spec has the defaults "written before any hardware is touched" and the
    gain sentinel "stored at default-initialization time": each setter stores
    its argument in the per-channel map of its own attribute and returns it;
    a getter reads the map ([std::map::operator[]], which yields the
    value-initialised element for a missing key). *)
Module radio_ctrl_impl.

(** Modelled from the spec: the per-channel state of the base class. *)
Record t := mk {
  _tx_freq : gmap nat double;
  _rx_freq : gmap nat double;
  _tx_gain : gmap nat double;
  _rx_gain : gmap nat double;
  _tx_antenna : gmap nat string;
  _rx_antenna : gmap nat string;
  _tx_bandwidth : gmap nat double;
  _rx_bandwidth : gmap nat double;
}.

(** Modelled from the spec: [radio_ctrl_impl::set_tx_frequency] stores and returns. *)
Definition set_tx_frequency (freq : double) (chan : nat) (s : t) : double * t :=
  (freq, mk (<[chan := freq]> (_tx_freq s)) (_rx_freq s) (_tx_gain s) (_rx_gain s)
            (_tx_antenna s) (_rx_antenna s) (_tx_bandwidth s) (_rx_bandwidth s)).

(** Modelled from the spec: [radio_ctrl_impl::set_rx_frequency] stores and returns. *)
Definition set_rx_frequency (freq : double) (chan : nat) (s : t) : double * t :=
  (freq, mk (_tx_freq s) (<[chan := freq]> (_rx_freq s)) (_tx_gain s) (_rx_gain s)
            (_tx_antenna s) (_rx_antenna s) (_tx_bandwidth s) (_rx_bandwidth s)).

(** Modelled from the spec: [radio_ctrl_impl::set_tx_gain] stores and returns. *)
Definition set_tx_gain (gain : double) (chan : nat) (s : t) : double * t :=
  (gain, mk (_tx_freq s) (_rx_freq s) (<[chan := gain]> (_tx_gain s)) (_rx_gain s)
            (_tx_antenna s) (_rx_antenna s) (_tx_bandwidth s) (_rx_bandwidth s)).

(** Modelled from the spec: [radio_ctrl_impl::set_rx_gain] stores and returns. *)
Definition set_rx_gain (gain : double) (chan : nat) (s : t) : double * t :=
  (gain, mk (_tx_freq s) (_rx_freq s) (_tx_gain s) (<[chan := gain]> (_rx_gain s))
            (_tx_antenna s) (_rx_antenna s) (_tx_bandwidth s) (_rx_bandwidth s)).

(** Modelled from the spec: [radio_ctrl_impl::set_tx_antenna] stores and returns. *)
Definition set_tx_antenna (ant : string) (chan : nat) (s : t) : unit * t :=
  (tt, mk (_tx_freq s) (_rx_freq s) (_tx_gain s) (_rx_gain s)
          (<[chan := ant]> (_tx_antenna s)) (_rx_antenna s) (_tx_bandwidth s) (_rx_bandwidth s)).

(** Modelled from the spec: [radio_ctrl_impl::set_rx_antenna] stores and returns. *)
Definition set_rx_antenna (ant : string) (chan : nat) (s : t) : unit * t :=
  (tt, mk (_tx_freq s) (_rx_freq s) (_tx_gain s) (_rx_gain s)
          (_tx_antenna s) (<[chan := ant]> (_rx_antenna s)) (_tx_bandwidth s) (_rx_bandwidth s)).

(** Modelled from the spec: [radio_ctrl_impl::set_tx_bandwidth] stores and returns. *)
Definition set_tx_bandwidth (bandwidth : double) (chan : nat) (s : t) : double * t :=
  (bandwidth, mk (_tx_freq s) (_rx_freq s) (_tx_gain s) (_rx_gain s)
                 (_tx_antenna s) (_rx_antenna s) (<[chan := bandwidth]> (_tx_bandwidth s)) (_rx_bandwidth s)).

(** Modelled from the spec: [radio_ctrl_impl::set_rx_bandwidth] stores and returns. *)
Definition set_rx_bandwidth (bandwidth : double) (chan : nat) (s : t) : double * t :=
  (bandwidth, mk (_tx_freq s) (_rx_freq s) (_tx_gain s) (_rx_gain s)
                 (_tx_antenna s) (_rx_antenna s) (_tx_bandwidth s) (<[chan := bandwidth]> (_rx_bandwidth s))).

(** Modelled from the spec: [radio_ctrl_impl::get_tx_gain] reads the stored gain. *)
Definition get_tx_gain (chan : nat) (s : t) : double * t :=
  match _tx_gain s !! chan with
  | Some gain => (gain, s)
  | None => set_tx_gain 0%float chan s
  end.

(** Modelled from the spec: [radio_ctrl_impl::get_rx_gain] reads the stored gain. *)
Definition get_rx_gain (chan : nat) (s : t) : double * t :=
  match _rx_gain s !! chan with
  | Some gain => (gain, s)
  | None => set_rx_gain 0%float chan s
  end.

End radio_ctrl_impl.

(** ** Declarations of the anonymous namespace and of the chip interfaces *)

Inductive slave_select_t := SEN_CPLD | SEN_TX_LO | SEN_RX_LO | SEN_LO_DIST.

Definition slave_select_value (s : slave_select_t) : Z :=
  match s with
  | SEN_CPLD => 8
  | SEN_TX_LO => 1
  | SEN_RX_LO => 2
  | SEN_LO_DIST => 4
  end.

Definition TX_FE_BASE : Z := 224.
Definition RX_FE_BASE : Z := 232.

Definition RHODIUM_DEFAULT_FREQ : double := 2.5e9%float.
Definition RHODIUM_DEFAULT_INVALID_GAIN : double := (-1)%float.
Definition RHODIUM_DEFAULT_GAIN : double := 0%float.
Definition RHODIUM_DEFAULT_LO_GAIN : double := 30%float.
Definition RHODIUM_DEFAULT_RX_ANTENNA : string := "RX2".
Definition RHODIUM_DEFAULT_TX_ANTENNA : string := "TX/RX".
Definition RHODIUM_DEFAULT_BANDWIDTH : double := 250e6%float.

Definition RHODIUM_GP_OPTIONS : list string := ["default"].

Inductive edge_t := EDGE_RISE | EDGE_FALL.

Record spi_config_t := {
  use_custom_divider : bool;
  divider : Z;
  mosi_edge : edge_t;
  miso_edge : edge_t;
}.

Definition _get_cpld_spi_config : spi_config_t :=
  {| use_custom_divider := true; divider := 10;
     mosi_edge := EDGE_RISE; miso_edge := EDGE_FALL |}.

Definition _get_tx_lo_spi_config : spi_config_t :=
  {| use_custom_divider := true; divider := 10;
     mosi_edge := EDGE_RISE; miso_edge := EDGE_FALL |}.

Definition _get_rx_lo_spi_config : spi_config_t :=
  {| use_custom_divider := true; divider := 10;
     mosi_edge := EDGE_RISE; miso_edge := EDGE_FALL |}.

(** The member [_spi] as the lambdas capture it. *)
Inductive spi_iface_sptr := this_spi.

(** The lambdas of [_generate_write_spi] and [_generate_read_spi], by what
    they capture and the width they pass. *)
Record spi_function := {
  fn_spi : spi_iface_sptr;
  fn_slave : slave_select_t;
  fn_config : spi_config_t;
  fn_num_bits : Z;
}.

Definition _generate_write_spi (spi : spi_iface_sptr) (slave : slave_select_t)
    (config : spi_config_t) : spi_function :=
  {| fn_spi := spi; fn_slave := slave; fn_config := config; fn_num_bits := 24 |}.

Definition _generate_read_spi (spi : spi_iface_sptr) (slave : slave_select_t)
    (config : spi_config_t) : spi_function :=
  {| fn_spi := spi; fn_slave := slave; fn_config := config; fn_num_bits := 24 |}.

Inductive mash_order_t := INT_N | FIRST | SECOND | THIRD | FOURTH.
Inductive gpio_atr_mode_t := MODE_ATR | MODE_GPIO.
Inductive gpio_ddr_t := DDR_INPUT | DDR_OUTPUT.

(** Arguments of a remote call. *)
Inductive rpc_arg :=
| arg_string (s : string)
| arg_size_t (n : nat).

(** ** Calls into the collaborators

    One constructor per function this file calls and does not define: chip
    drivers, the remote peripheral client and the controller's own methods
    of the other translation units, with the arguments of the call. *)
Inductive method :=
(* bus core and chips *)
| spi_core_3000_make
| write_spi (slave : slave_select_t) (config : spi_config_t) (data : Z) (num_bits : Z)
| read_spi (slave : slave_select_t) (config : spi_config_t) (data : Z) (num_bits : Z)
| rhodium_cpld_ctrl_make (write_fn read_fn : spi_function)
| _cpld_set_gain_index (index : double) (dir : direction_t)
| lmx2592_iface_make (write_fn read_fn : spi_function)
| _tx_lo_set_reference_frequency (freq : double)
| _tx_lo_set_mash_order (order : mash_order_t)
| _rx_lo_set_reference_frequency (freq : double)
| _rx_lo_set_mash_order (order : mash_order_t)
| gpio_atr_3000_make
| _gpio_set_atr_mode (mode : gpio_atr_mode_t) (mask : Z)
| _gpio_set_gpio_ddr (ddr : gpio_ddr_t) (mask : Z)
| _gpio_set_gpio_out (value : Z) (mask : Z)
| rx_frontend_core_3000_make (base : Z)
| _rx_fe_core_set_adc_rate (rate : double)
| _rx_fe_core_set_dc_offset
| _rx_fe_core_set_dc_offset_auto
| _rx_fe_core_populate_subtree (path : fs_path)
| tx_frontend_core_200_make (base : Z)
| _tx_fe_core_set_dc_offset
| _tx_fe_core_set_iq_balance
| _tx_fe_core_populate_subtree (path : fs_path)
(* frontend attributes *)
| _set_tx_fe_connection (conn : string)
| _get_tx_fe_connection
| _set_rx_fe_connection (conn : string)
| _get_rx_fe_connection
| set_tx_antenna (ant : string) (chan : nat)
| get_tx_antenna (chan : nat)
| set_rx_antenna (ant : string) (chan : nat)
| get_rx_antenna (chan : nat)
| set_tx_frequency (freq : double) (chan : nat)
| get_tx_frequency (chan : nat)
| set_rx_frequency (freq : double) (chan : nat)
| get_rx_frequency (chan : nat)
| set_tx_bandwidth (bw : double) (chan : nat)
| get_tx_bandwidth (chan : nat)
| set_rx_bandwidth (bw : double) (chan : nat)
| get_rx_bandwidth (chan : nat)
| set_tx_gain (gain : double) (chan : nat)
| set_rx_gain (gain : double) (chan : nat)
| _get_gain_range (dir : direction_t)
| get_lo_lock_status (dir : direction_t)
(* local oscillators *)
| get_rx_lo_freq (name : string) (chan : nat)
| set_rx_lo_freq (freq : double) (name : string) (chan : nat)
| get_rx_lo_freq_range (name : string) (chan : nat)
| get_rx_lo_sources (name : string) (chan : nat)
| set_rx_lo_source (src : string) (name : string) (chan : nat)
| get_rx_lo_source (name : string) (chan : nat)
| set_rx_lo_export_enabled (enabled : bool) (name : string) (chan : nat)
| get_rx_lo_gain (name : string) (chan : nat)
| set_rx_lo_gain (gain : double) (name : string) (chan : nat)
| get_rx_lo_power (name : string) (chan : nat)
| set_rx_lo_power (power : double) (name : string) (chan : nat)
| get_tx_lo_freq (name : string) (chan : nat)
| set_tx_lo_freq (freq : double) (name : string) (chan : nat)
| get_tx_lo_freq_range (name : string) (chan : nat)
| get_tx_lo_sources (name : string) (chan : nat)
| set_tx_lo_source (src : string) (name : string) (chan : nat)
| get_tx_lo_source (name : string) (chan : nat)
| set_tx_lo_export_enabled (enabled : bool) (name : string) (chan : nat)
| get_tx_lo_gain (name : string) (chan : nat)
| set_tx_lo_gain (gain : double) (name : string) (chan : nat)
| get_tx_lo_power (name : string) (chan : nat)
| set_tx_lo_power (power : double) (name : string) (chan : nat)
| _get_lo_gain_range
| _get_lo_power_range
(* block and remote peripheral client *)
| get_rate
| request_with_token_strings (func_name : string) (args : list rpc_arg)
| request_with_token_sensor_map (func_name : string) (args : list rpc_arg).

(** The result type of each call. *)
Definition result_type (m : method) : ty :=
  match m with
  | read_spi _ _ _ _ => TSizeT
  | _get_tx_fe_connection | _get_rx_fe_connection
  | get_tx_antenna _ | get_rx_antenna _
  | get_rx_lo_source _ _ | get_tx_lo_source _ _ => TString
  | set_tx_frequency _ _ | get_tx_frequency _ | set_rx_frequency _ _ | get_rx_frequency _
  | set_tx_bandwidth _ _ | get_tx_bandwidth _ | set_rx_bandwidth _ _ | get_rx_bandwidth _
  | set_tx_gain _ _ | set_rx_gain _ _
  | get_rx_lo_freq _ _ | set_rx_lo_freq _ _ _ | get_rx_lo_gain _ _ | set_rx_lo_gain _ _ _
  | get_rx_lo_power _ _ | set_rx_lo_power _ _ _
  | get_tx_lo_freq _ _ | set_tx_lo_freq _ _ _ | get_tx_lo_gain _ _ | set_tx_lo_gain _ _ _
  | get_tx_lo_power _ _ | set_tx_lo_power _ _ _
  | get_rate => TDouble
  | _get_gain_range _ | get_rx_lo_freq_range _ _ | get_tx_lo_freq_range _ _
  | _get_lo_gain_range | _get_lo_power_range => TRange
  | get_lo_lock_status _ => TBool
  | get_rx_lo_sources _ _ | get_tx_lo_sources _ _
  | request_with_token_strings _ _ => TStrings
  | request_with_token_sensor_map _ _ => TSensorMap
  | _ => TUnit
  end.

(** ** The controller object *)

Record rhodium_radio_ctrl_impl (HW : Type) := mk_rhodium {
  base : radio_ctrl_impl.t;
  _radio_slot : string;
  _rpc_prefix : string;
  _root_path : fs_path;
  _master_clock_rate : double;
  _gain_profile : gmap direction_t string;
  hw : HW;
}.
Arguments mk_rhodium {HW}.
Arguments base {HW}.
Arguments _radio_slot {HW}.
Arguments _rpc_prefix {HW}.
Arguments _root_path {HW}.
Arguments _master_clock_rate {HW}.
Arguments _gain_profile {HW}.
Arguments hw {HW}.

(** Constants of rhodium_constants.hpp and of the CHDR and GPIO headers,
    which are not among the sources: parameters of the development.
    [gain_range dir] is the device-specific range the gain of a direction is
    clamped to. *)
Class rhodium_constants := {
  RHODIUM_LO1 : string;
  RHODIUM_LO2 : string;
  RHODIUM_LO_GAIN : string;
  RHODIUM_LO_POWER : string;
  RHODIUM_RX_ANTENNAS : list string;
  RHODIUM_MIN_FREQ : double;
  RHODIUM_MAX_FREQ : double;
  RHODIUM_LO1_REF_FREQ : double;
  max_if_hdr_words64 : Z;
  MASK_SET_ALL : Z;
  gain_range : direction_t → range_t;
}.

(** The collaborators: [HW] is the state they keep (chips, remote peripheral
    manager, the members of the controller this file never names); [handler]
    answers a call from the controller object and may change it or throw. *)
Class collaborators := {
  HW : Type;
  handler : ∀ m : method,
    rhodium_radio_ctrl_impl HW →
    outcome (denote (result_type m)) * rhodium_radio_ctrl_impl HW;
  get_output_ports : rhodium_radio_ctrl_impl HW → list nat;
  get_input_ports : rhodium_radio_ctrl_impl HW → list nat;
  get_arg_path : string → fs_path;
}.

(** ** Computations of the controller *)

Section Controller.
Context `{C : collaborators}.

(** The state a callback runs in: the controller object and the ghost trace
    of the calls made to the collaborators so far. *)
Record ctx := mk_ctx {
  this : rhodium_radio_ctrl_impl HW;
  trace : list method;
}.

Definition M : Type → Type := SE ctx.

(** A call into a collaborator. *)
Definition invoke (m : method) : M (denote (result_type m)) :=
  λ c, let (r, o) := handler m (this c) in
       (r, {| this := o; trace := trace c ++ [m] |}).

(** A qualified call [radio_ctrl_impl::f(...)] of a base-class method. *)
Definition call_base {A} (f : radio_ctrl_impl.t → A * radio_ctrl_impl.t) : M A :=
  λ c, let o := this c in
       let (a, b) := f (base o) in
       (Ok a, {| this := mk_rhodium b (_radio_slot o) (_rpc_prefix o) (_root_path o)
                           (_master_clock_rate o) (_gain_profile o) (hw o);
                 trace := trace c |}).

(** [_gain_profile[dir] = profile]. *)
Definition set_gain_profile (dir : direction_t) (profile : string) : M unit :=
  modify (λ c, let o := this c in
               {| this := mk_rhodium (base o) (_radio_slot o) (_rpc_prefix o) (_root_path o)
                            (_master_clock_rate o) (<[dir := profile]> (_gain_profile o)) (hw o);
                  trace := trace c |}).

(** [_gain_profile[dir]] read: [std::map::operator[]] inserts the empty
    string for a missing key. *)
Definition get_gain_profile (dir : direction_t) : M string :=
  λ c, match _gain_profile (this c) !! dir with
       | Some profile => (Ok profile, c)
       | None => bind (set_gain_profile dir "") (λ _, ret "") c
       end.

(** Modelled from the spec: [uhd::has(container, value)] (algorithm.hpp is
    not among the sources), membership in "a fixed option set". *)
Definition has (l : list string) (x : string) : bool := bool_decide (x ∈ l).

(** ** The property tree engine *)

(** Modelled from the spec: [uhd::property_tree] and [property<T>]
    (property_tree.hpp, property_tree.ipp and property_tree.cpp are not among
    the sources).  After section 3 and section 4.1 of the spec: a node holds a
    stored value, an optional coercer, an optional publisher and the ordered
    list of its subscribers. *)
Record property (A : Type) := mk_property {
  stored : option A;
  coercer : option (A → M A);
  publisher : option (M A);
  subscribers : list (A → M unit);
}.
Arguments mk_property {A}.
Arguments stored {A}.
Arguments coercer {A}.
Arguments publisher {A}.
Arguments subscribers {A}.

(** Modelled from the spec: the node [create<T>(path)] returns, with no
    value, coercer, publisher or subscriber. *)
Definition new_property {A} : property A := mk_property None None None [].

(** Modelled from the spec: [set_coercer], the "optional coercion function". *)
Definition set_coercer {A} (f : A → M A) (p : property A) : property A :=
  mk_property (stored p) (Some f) (publisher p) (subscribers p).

(** Modelled from the spec: [set_publisher], the "optional publisher function". *)
Definition set_publisher {A} (f : M A) (p : property A) : property A :=
  mk_property (stored p) (coercer p) (Some f) (subscribers p).

(** Modelled from the spec: [add_coerced_subscriber] appends to the "ordered
    list of subscriber callbacks". *)
Definition add_coerced_subscriber {A} (f : A → M unit) (p : property A) : property A :=
  mk_property (stored p) (coercer p) (publisher p) (subscribers p ++ [f]).

(** Modelled from the spec: the store of a value in a node. *)
Definition store {A} (v : A) (p : property A) : property A :=
  mk_property (Some v) (coercer p) (publisher p) (subscribers p).

(** Modelled from the spec: the notification of the subscribers, "in
    registration order"; the first exception ends it and reaches the caller. *)
Definition notify {A} (subs : list (A → M unit)) (v : A) : M unit :=
  for_each subs (λ f, f v).

(** Modelled from the spec: [set], which "runs coercion if present (coercion may itself fail); stores the
    coerced result; fires all subscribers in registration order with the
    coerced value; subscriber exceptions propagate to the caller of set (the
    store happens before subscriber notification)". *)
Definition property_set {A} (p : property A) (v : A) : ctx → outcome unit * property A * ctx :=
  λ c, match (match coercer p with Some f => f v | None => ret v end) c with
       | (Throw e, c1) => (Throw e, p, c1)
       | (Ok v', c1) =>
           let (r, c2) := notify (subscribers p) v' c1 in
           (r, store v' p, c2)
       end.

(** Modelled from the spec: [get], which "if a publisher is attached, invokes
    it and returns the result (no caching, no notification); otherwise
    returns the stored value".  A node with neither has nothing to return. *)
Definition property_get {A} (p : property A) : M A :=
  match publisher p with
  | Some pub => pub
  | None =>
      match stored p with
      | Some v => ret v
      | None => throw (runtime_error "Cannot get() on an uninitialized (empty) property")
      end
  end.

End Controller.

Arguments mk_property {C A}.
Arguments stored {C A}.
Arguments coercer {C A}.
Arguments publisher {C A}.
Arguments subscribers {C A}.

#[global] Instance ty_eq_dec : EqDecision ty.
Proof. solve_decision. Defined.

(** The tree: "a mapping from hierarchical path to PropertyNode"; "paths are
    unique; creating at an existing path replaces the node". *)
Abbreviation property_tree := (gmap (list string) {T : ty & property (denote T)}).

Section Tree.
Context `{C : collaborators}.

(** Modelled from the spec: a node is read and written at the type it was
    created with. *)
Definition cast_property (T' T : ty) (p : property (denote T')) : option (property (denote T)) :=
  match decide (T' = T) with
  | left e => Some (eq_rect T' (λ X, property (denote X)) p T e)
  | right _ => None
  end.

(** Modelled from the spec: [access<T>(path)], which "fails with
    NoSuchPathError if absent". *)
Definition access (T : ty) (t : property_tree) (path : fs_path) : outcome (property (denote T)) :=
  match t !! path with
  | None => Throw (NoSuchPathError path)
  | Some (existT T' p) =>
      match cast_property T' T p with
      | Some p' => Ok p'
      | None => Throw (type_error "property type mismatch")
      end
  end.

(** Modelled from the spec: [create<T>(path)], with the node its call chain
    builds; "creating at an existing path replaces the node". *)
Definition create (T : ty) (path : fs_path) (p : property (denote T))
    (t : property_tree) : property_tree :=
  <[path := existT T p]> t.

(** Modelled from the spec: [subtree(root)->create<T>(path)], through "a view
    whose paths are relative to [root]; operations on the view delegate to
    the same nodes as the absolute path". *)
Definition subtree_create (root : fs_path) (T : ty) (path : fs_path)
    (p : property (denote T)) (t : property_tree) : property_tree :=
  create T (root ++ path) p t.

(** The controller object, the trace and the tree it holds through [_tree]. *)
Record world := mk_world {
  tree : property_tree;
  context : ctx;
}.

Definition W : Type → Type := SE world.

Definition lift {A} (m : M A) : W A :=
  λ w, let (r, c) := m (context w) in (r, {| tree := tree w; context := c |}).

Definition get_this : W (rhodium_radio_ctrl_impl HW) := gets (λ w, this (context w)).

Definition update_tree (f : property_tree → property_tree) : W unit :=
  modify (λ w, {| tree := f (tree w); context := context w |}).

(** Modelled from the spec: [access<T>(path).set(v)]; the node keeps what
    [set] stored also when a subscriber throws. *)
Definition tree_set (T : ty) (path : fs_path) (v : denote T) : W unit :=
  λ w, match access T (tree w) path with
       | Throw e => (Throw e, w)
       | Ok p =>
           let '(r, p', c) := property_set p v (context w) in
           (r, {| tree := <[path := existT T p']> (tree w); context := c |})
       end.

(** Modelled from the spec: [access<T>(path).get()]. *)
Definition tree_get (T : ty) (path : fs_path) : W (denote T) :=
  λ w, match access T (tree w) path with
       | Throw e => (Throw e, w)
       | Ok p => lift (property_get p) w
       end.

(** Modelled from the spec: [exists(path)], "boolean, never fails". *)
Definition tree_exists (t : property_tree) (path : fs_path) : bool :=
  bool_decide (is_Some (t !! path)).

(** The stored value of the node at [path], when there is one of type [T]. *)
Definition stored_at (T : ty) (t : property_tree) (path : fs_path) : option (denote T) :=
  match access T t path with
  | Ok p => stored p
  | Throw _ => None
  end.

End Tree.

Notation "x |.> f" := (f x) (at level 45, left associativity, only parsing).

(** ** rhodium_radio_ctrl_init.cpp *)

Section Init.
Context `{K : rhodium_constants} `{C : collaborators}.

(** The rejecting subscriber of a read-only node. *)
Definition reject {A} (what : string) : A → M unit :=
  λ _, throw (runtime_error what).

(** The coercer of a [gains/all/profile/value] node. *)
Definition gain_profile_coercer (dir : direction_t) (profile : string) : M string :=
  let return_profile := if negb (has RHODIUM_GP_OPTIONS profile) then "default" else profile in
  set_gain_profile dir return_profile ;;
  ret return_profile.

(** The publisher of a [sensors/lo_locked] node. *)
Definition lo_locked_publisher (dir : direction_t) : M sensor_value_t :=
  locked <- invoke (get_lo_lock_status dir) ;;
  ret (sensor_bool "all_los" locked "locked" "unlocked").

(** [_init_frontend_subtree].  Each [subtree->create<T>(path)] is followed by
    the call chain of the source, in its order.  Where the chain has
    [.set(v)] it comes first, on the node just created, which has neither
    coercer nor subscriber yet: the write is the plain [store]
    (lemma [property_set_new]), and no callback runs while the tree is
    wired. *)
Definition _init_frontend_subtree (subtree : fs_path) (chan_idx : nat)
    (t : property_tree) : property_tree :=
  let tx_fe_path := ["tx_frontends"] </> to_string chan_idx in
  let rx_fe_path := ["rx_frontends"] </> to_string chan_idx in
  t
  (* TX Standard attributes *)
  |.> subtree_create subtree TString (tx_fe_path </> "name")
        (new_property |.> store "Rhodium")
  |.> subtree_create subtree TString (tx_fe_path </> "connection")
        (new_property
         |.> add_coerced_subscriber (λ conn, invoke (_set_tx_fe_connection conn))
         |.> set_publisher (invoke _get_tx_fe_connection))
  |.> subtree_create subtree TDeviceAddr (tx_fe_path </> "tune_args")
        (new_property |.> store [])
  (* RX Standard attributes *)
  |.> subtree_create subtree TString (rx_fe_path </> "name")
        (new_property |.> store "Rhodium")
  |.> subtree_create subtree TString (rx_fe_path </> "connection")
        (new_property
         |.> add_coerced_subscriber (λ conn, invoke (_set_rx_fe_connection conn))
         |.> set_publisher (invoke _get_rx_fe_connection))
  |.> subtree_create subtree TDeviceAddr (rx_fe_path </> "tune_args")
        (new_property |.> store [])
  (* TX Antenna *)
  |.> subtree_create subtree TString (tx_fe_path </> "antenna" </> "value")
        (new_property
         |.> add_coerced_subscriber (λ ant, invoke (set_tx_antenna ant chan_idx))
         |.> set_publisher (invoke (get_tx_antenna chan_idx)))
  |.> subtree_create subtree TStrings (tx_fe_path </> "antenna" </> "options")
        (new_property
         |.> store [RHODIUM_DEFAULT_TX_ANTENNA]
         |.> add_coerced_subscriber (reject "Attempting to update antenna options!"))
  (* RX Antenna *)
  |.> subtree_create subtree TString (rx_fe_path </> "antenna" </> "value")
        (new_property
         |.> add_coerced_subscriber (λ ant, invoke (set_rx_antenna ant chan_idx))
         |.> set_publisher (invoke (get_rx_antenna chan_idx)))
  |.> subtree_create subtree TStrings (rx_fe_path </> "antenna" </> "options")
        (new_property
         |.> store RHODIUM_RX_ANTENNAS
         |.> add_coerced_subscriber (reject "Attempting to update antenna options!"))
  (* TX frequency *)
  |.> subtree_create subtree TDouble (tx_fe_path </> "freq" </> "value")
        (new_property
         |.> set_coercer (λ freq, invoke (set_tx_frequency freq chan_idx))
         |.> set_publisher (invoke (get_tx_frequency chan_idx)))
  |.> subtree_create subtree TRange (tx_fe_path </> "freq" </> "range")
        (new_property
         |.> store (meta_range RHODIUM_MIN_FREQ RHODIUM_MAX_FREQ 1%float)
         |.> add_coerced_subscriber (reject "Attempting to update freq range!"))
  (* RX frequency *)
  |.> subtree_create subtree TDouble (rx_fe_path </> "freq" </> "value")
        (new_property
         |.> set_coercer (λ freq, invoke (set_rx_frequency freq chan_idx))
         |.> set_publisher (invoke (get_rx_frequency chan_idx)))
  |.> subtree_create subtree TRange (rx_fe_path </> "freq" </> "range")
        (new_property
         |.> store (meta_range RHODIUM_MIN_FREQ RHODIUM_MAX_FREQ 1%float)
         |.> add_coerced_subscriber (reject "Attempting to update freq range!"))
  (* TX bandwidth *)
  |.> subtree_create subtree TDouble (tx_fe_path </> "bandwidth" </> "value")
        (new_property
         |.> set_coercer (λ bw, invoke (set_tx_bandwidth bw chan_idx))
         |.> set_publisher (invoke (get_tx_bandwidth chan_idx)))
  |.> subtree_create subtree TRange (tx_fe_path </> "bandwidth" </> "range")
        (new_property
         |.> store (meta_range 0%float 0%float 0%float)
         |.> add_coerced_subscriber (reject "Attempting to update bandwidth range!"))
  (* RX bandwidth *)
  |.> subtree_create subtree TDouble (rx_fe_path </> "bandwidth" </> "value")
        (new_property
         |.> set_coercer (λ bw, invoke (set_rx_bandwidth bw chan_idx))
         |.> set_publisher (invoke (get_rx_bandwidth chan_idx)))
  |.> subtree_create subtree TRange (rx_fe_path </> "bandwidth" </> "range")
        (new_property
         |.> store (meta_range 0%float 0%float 0%float)
         |.> add_coerced_subscriber (reject "Attempting to update bandwidth range!"))
  (* TX gains *)
  |.> subtree_create subtree TDouble (tx_fe_path </> "gains" </> "all" </> "value")
        (new_property
         |.> set_coercer (λ gain, invoke (set_tx_gain gain chan_idx))
         |.> set_publisher (call_base (radio_ctrl_impl.get_tx_gain chan_idx)))
  |.> subtree_create subtree TRange (tx_fe_path </> "gains" </> "all" </> "range")
        (new_property
         |.> add_coerced_subscriber (reject "Attempting to update gain range!")
         |.> set_publisher (invoke (_get_gain_range TX_DIRECTION)))
  |.> subtree_create subtree TStrings
        (tx_fe_path </> "gains" </> "all" </> "profile" </> "options")
        (new_property |.> store RHODIUM_GP_OPTIONS)
  |.> subtree_create subtree TString
        (tx_fe_path </> "gains" </> "all" </> "profile" </> "value")
        (new_property
         |.> set_coercer (gain_profile_coercer TX_DIRECTION)
         |.> set_publisher (get_gain_profile TX_DIRECTION))
  (* RX gains *)
  |.> subtree_create subtree TDouble (rx_fe_path </> "gains" </> "all" </> "value")
        (new_property
         |.> set_coercer (λ gain, invoke (set_rx_gain gain chan_idx))
         |.> set_publisher (call_base (radio_ctrl_impl.get_rx_gain chan_idx)))
  |.> subtree_create subtree TRange (rx_fe_path </> "gains" </> "all" </> "range")
        (new_property
         |.> add_coerced_subscriber (reject "Attempting to update gain range!")
         |.> set_publisher (invoke (_get_gain_range RX_DIRECTION)))
  |.> subtree_create subtree TStrings
        (rx_fe_path </> "gains" </> "all" </> "profile" </> "options")
        (new_property |.> store RHODIUM_GP_OPTIONS)
  |.> subtree_create subtree TString
        (rx_fe_path </> "gains" </> "all" </> "profile" </> "value")
        (new_property
         |.> set_coercer (gain_profile_coercer RX_DIRECTION)
         |.> set_publisher (get_gain_profile RX_DIRECTION))
  (* TX LO lock sensor *)
  |.> subtree_create subtree TSensor (tx_fe_path </> "sensors" </> "lo_locked")
        (new_property
         |.> store (sensor_bool "all_los" false "locked" "unlocked")
         |.> add_coerced_subscriber (reject "Attempting to write to sensor!")
         |.> set_publisher (lo_locked_publisher TX_DIRECTION))
  (* RX LO lock sensor *)
  |.> subtree_create subtree TSensor (rx_fe_path </> "sensors" </> "lo_locked")
        (new_property
         |.> store (sensor_bool "all_los" false "locked" "unlocked")
         |.> add_coerced_subscriber (reject "Attempting to write to sensor!")
         |.> set_publisher (lo_locked_publisher RX_DIRECTION))
  (* RX LO1 Frequency *)
  |.> subtree_create subtree TDouble
        (rx_fe_path </> "los" </> RHODIUM_LO1 </> "freq" </> "value")
        (new_property
         |.> set_publisher (invoke (get_rx_lo_freq RHODIUM_LO1 chan_idx))
         |.> set_coercer (λ freq, invoke (set_rx_lo_freq freq RHODIUM_LO1 chan_idx)))
  |.> subtree_create subtree TRange
        (rx_fe_path </> "los" </> RHODIUM_LO1 </> "freq" </> "range")
        (new_property
         |.> set_publisher (invoke (get_rx_lo_freq_range RHODIUM_LO1 chan_idx)))
  (* RX LO1 Source *)
  |.> subtree_create subtree TStrings
        (rx_fe_path </> "los" </> RHODIUM_LO1 </> "source" </> "options")
        (new_property
         |.> set_publisher (invoke (get_rx_lo_sources RHODIUM_LO1 chan_idx)))
  |.> subtree_create subtree TString
        (rx_fe_path </> "los" </> RHODIUM_LO1 </> "source" </> "value")
        (new_property
         |.> add_coerced_subscriber (λ src, invoke (set_rx_lo_source src RHODIUM_LO1 chan_idx))
         |.> set_publisher (invoke (get_rx_lo_source RHODIUM_LO1 chan_idx)))
  (* RX LO1 Export *)
  |.> subtree_create subtree TBool (rx_fe_path </> "los" </> RHODIUM_LO1 </> "export")
        (new_property
         |.> add_coerced_subscriber
               (λ enabled, invoke (set_rx_lo_export_enabled enabled RHODIUM_LO1 chan_idx)))
  (* RX LO1 Gain *)
  |.> subtree_create subtree TDouble
        (rx_fe_path </> "los" </> RHODIUM_LO1 </> "gains" </> RHODIUM_LO_GAIN </> "value")
        (new_property
         |.> set_publisher (invoke (get_rx_lo_gain RHODIUM_LO1 chan_idx))
         |.> set_coercer (λ gain, invoke (set_rx_lo_gain gain RHODIUM_LO1 chan_idx)))
  |.> subtree_create subtree TRange
        (rx_fe_path </> "los" </> RHODIUM_LO1 </> "gains" </> RHODIUM_LO_GAIN </> "range")
        (new_property
         |.> set_publisher (invoke _get_lo_gain_range)
         |.> add_coerced_subscriber (reject "Attempting to update LO gain range!"))
  (* RX LO1 Output Power *)
  |.> subtree_create subtree TDouble
        (rx_fe_path </> "los" </> RHODIUM_LO1 </> "gains" </> RHODIUM_LO_POWER </> "value")
        (new_property
         |.> set_publisher (invoke (get_rx_lo_power RHODIUM_LO1 chan_idx))
         |.> set_coercer (λ gain, invoke (set_rx_lo_power gain RHODIUM_LO1 chan_idx)))
  |.> subtree_create subtree TRange
        (rx_fe_path </> "los" </> RHODIUM_LO1 </> "gains" </> RHODIUM_LO_POWER </> "range")
        (new_property
         |.> set_publisher (invoke _get_lo_power_range)
         |.> add_coerced_subscriber (reject "Attempting to update LO output power range!"))
  (* RX LO2 Frequency *)
  |.> subtree_create subtree TDouble
        (rx_fe_path </> "los" </> RHODIUM_LO2 </> "freq" </> "value")
        (new_property
         |.> set_publisher (invoke (get_rx_lo_freq RHODIUM_LO2 chan_idx))
         |.> set_coercer (λ freq, invoke (set_rx_lo_freq freq RHODIUM_LO2 chan_idx)))
  |.> subtree_create subtree TRange
        (rx_fe_path </> "los" </> RHODIUM_LO2 </> "freq" </> "range")
        (new_property
         |.> set_publisher (invoke (get_rx_lo_freq_range RHODIUM_LO2 chan_idx)))
  (* RX LO2 Source *)
  |.> subtree_create subtree TStrings
        (rx_fe_path </> "los" </> RHODIUM_LO2 </> "source" </> "options")
        (new_property
         |.> set_publisher (invoke (get_rx_lo_sources RHODIUM_LO2 chan_idx)))
  |.> subtree_create subtree TString
        (rx_fe_path </> "los" </> RHODIUM_LO2 </> "source" </> "value")
        (new_property
         |.> add_coerced_subscriber (λ src, invoke (set_rx_lo_source src RHODIUM_LO2 chan_idx))
         |.> set_publisher (invoke (get_rx_lo_source RHODIUM_LO2 chan_idx)))
  (* RX LO2 Export *)
  |.> subtree_create subtree TBool (rx_fe_path </> "los" </> RHODIUM_LO2 </> "export")
        (new_property
         |.> add_coerced_subscriber
               (λ enabled, invoke (set_rx_lo_export_enabled enabled RHODIUM_LO2 chan_idx)))
  (* TX LO1 Frequency: the literal of the source is "freq/value " *)
  |.> subtree_create subtree TDouble
        (tx_fe_path </> "los" </> RHODIUM_LO1 </> "freq" </> "value ")
        (new_property
         |.> set_publisher (invoke (get_tx_lo_freq RHODIUM_LO1 chan_idx))
         |.> set_coercer (λ freq, invoke (set_tx_lo_freq freq RHODIUM_LO1 chan_idx)))
  |.> subtree_create subtree TRange
        (tx_fe_path </> "los" </> RHODIUM_LO1 </> "freq" </> "range")
        (new_property
         |.> set_publisher (invoke (get_rx_lo_freq_range RHODIUM_LO1 chan_idx)))
  (* TX LO1 Source *)
  |.> subtree_create subtree TStrings
        (tx_fe_path </> "los" </> RHODIUM_LO1 </> "source" </> "options")
        (new_property
         |.> set_publisher (invoke (get_tx_lo_sources RHODIUM_LO1 chan_idx)))
  |.> subtree_create subtree TString
        (tx_fe_path </> "los" </> RHODIUM_LO1 </> "source" </> "value")
        (new_property
         |.> add_coerced_subscriber (λ src, invoke (set_tx_lo_source src RHODIUM_LO1 chan_idx))
         |.> set_publisher (invoke (get_tx_lo_source RHODIUM_LO1 chan_idx)))
  (* TX LO1 Export *)
  |.> subtree_create subtree TBool (tx_fe_path </> "los" </> RHODIUM_LO1 </> "export")
        (new_property
         |.> add_coerced_subscriber
               (λ enabled, invoke (set_tx_lo_export_enabled enabled RHODIUM_LO1 chan_idx)))
  (* TX LO1 Gain *)
  |.> subtree_create subtree TDouble
        (tx_fe_path </> "los" </> RHODIUM_LO1 </> "gains" </> RHODIUM_LO_GAIN </> "value")
        (new_property
         |.> set_publisher (invoke (get_tx_lo_gain RHODIUM_LO1 chan_idx))
         |.> set_coercer (λ gain, invoke (set_tx_lo_gain gain RHODIUM_LO1 chan_idx)))
  |.> subtree_create subtree TRange
        (tx_fe_path </> "los" </> RHODIUM_LO1 </> "gains" </> RHODIUM_LO_GAIN </> "range")
        (new_property
         |.> set_publisher (invoke _get_lo_gain_range)
         |.> add_coerced_subscriber (reject "Attempting to update LO gain range!"))
  (* TX LO1 Output Power *)
  |.> subtree_create subtree TDouble
        (tx_fe_path </> "los" </> RHODIUM_LO1 </> "gains" </> RHODIUM_LO_POWER </> "value")
        (new_property
         |.> set_publisher (invoke (get_tx_lo_power RHODIUM_LO1 chan_idx))
         |.> set_coercer (λ gain, invoke (set_tx_lo_power gain RHODIUM_LO1 chan_idx)))
  |.> subtree_create subtree TRange
        (tx_fe_path </> "los" </> RHODIUM_LO1 </> "gains" </> RHODIUM_LO_POWER </> "range")
        (new_property
         |.> set_publisher (invoke _get_lo_power_range)
         |.> add_coerced_subscriber (reject "Attempting to update LO output power range!"))
  (* TX LO2 Frequency *)
  |.> subtree_create subtree TDouble
        (tx_fe_path </> "los" </> RHODIUM_LO2 </> "freq" </> "value")
        (new_property
         |.> set_publisher (invoke (get_tx_lo_freq RHODIUM_LO2 chan_idx))
         |.> set_coercer (λ freq, invoke (set_tx_lo_freq freq RHODIUM_LO2 chan_idx)))
  |.> subtree_create subtree TRange
        (tx_fe_path </> "los" </> RHODIUM_LO2 </> "freq" </> "range")
        (new_property
         |.> set_publisher (invoke (get_tx_lo_freq_range RHODIUM_LO2 chan_idx)))
  (* TX LO2 Source *)
  |.> subtree_create subtree TStrings
        (tx_fe_path </> "los" </> RHODIUM_LO2 </> "source" </> "options")
        (new_property
         |.> set_publisher (invoke (get_tx_lo_sources RHODIUM_LO2 chan_idx)))
  |.> subtree_create subtree TString
        (tx_fe_path </> "los" </> RHODIUM_LO2 </> "source" </> "value")
        (new_property
         |.> add_coerced_subscriber (λ src, invoke (set_tx_lo_source src RHODIUM_LO2 chan_idx))
         |.> set_publisher (invoke (get_tx_lo_source RHODIUM_LO2 chan_idx)))
  (* TX LO2 Export *)
  |.> subtree_create subtree TBool (tx_fe_path </> "los" </> RHODIUM_LO2 </> "export")
        (new_property
         |.> add_coerced_subscriber
               (λ enabled, invoke (set_tx_lo_export_enabled enabled RHODIUM_LO2 chan_idx))).

(** The publisher of a remote sensor node. *)
Definition mpm_sensor_publisher (trx sensor_name : string) (chan_idx : nat) : M sensor_value_t :=
  o <- gets this ;;
  m <- invoke (request_with_token_sensor_map (_rpc_prefix o +:+ "get_sensor")
                 [arg_string trx; arg_string sensor_name; arg_size_t chan_idx]) ;;
  ret (sensor_of_map m).

Definition _init_prop_tree : W unit :=
  o <- get_this ;;
  let fe_base := ["dboards"] </> _radio_slot o in
  update_tree (_init_frontend_subtree fe_base 0) ;;
  update_tree (create TEepromMap (_root_path o </> "eeprom") (new_property |.> store [])) ;;
  update_tree (create TInt (["rx_codecs"] </> _radio_slot o </> "gains") new_property) ;;
  update_tree (create TInt (["tx_codecs"] </> _radio_slot o </> "gains") new_property) ;;
  update_tree (create TString (["rx_codecs"] </> _radio_slot o </> "name")
                 (new_property |.> store "ad9695-625")) ;;
  update_tree (create TString (["tx_codecs"] </> _radio_slot o </> "name")
                 (new_property |.> store "dac37j82")) ;;
  tick_rate <- gets (λ w, tree_exists (tree w) ["tick_rate"]) ;;
  if negb tick_rate
  then update_tree (create TDouble ["tick_rate"]
                      (new_property |.> set_publisher (invoke get_rate)))
  else ret tt.

Definition _init_mpm_sensors (dir : direction_t) (chan_idx : nat) : W unit :=
  o <- get_this ;;
  let trx := if decide (dir = RX_DIRECTION) then "RX" else "TX" in
  let fe_path :=
    ["dboards"] </> _radio_slot o
    </> (if decide (dir = RX_DIRECTION) then "rx_frontends" else "tx_frontends")
    </> to_string chan_idx in
  sensor_list <- lift (invoke (request_with_token_strings
                                 (_rpc_prefix o +:+ "get_sensors") [arg_string trx])) ;;
  for_each sensor_list (λ sensor_name,
    update_tree (create TSensor (fe_path </> "sensors" </> sensor_name)
                   (new_property
                    |.> add_coerced_subscriber (reject "Attempting to write to sensor!")
                    |.> set_publisher (mpm_sensor_publisher trx sensor_name chan_idx)))).

(** [default_spp] of [_init_defaults], from the value read at ["mtu/recv"]:
    [size_t] arithmetic throughout. *)
Definition default_spp (mtu_recv : Z) : Z :=
  let max_bytes_header := to_size_t (max_if_hdr_words64 * sizeof_uint64_t) in
  to_size_t (to_size_t (mtu_recv - max_bytes_header) / to_size_t (2 * sizeof_int16_t)).

(** Body of the first loop of [_init_defaults]. *)
Definition _init_defaults_rx_chan (chan : nat) : W unit :=
  lift (call_base (radio_ctrl_impl.set_rx_frequency RHODIUM_DEFAULT_FREQ chan)) ;;
  lift (call_base (radio_ctrl_impl.set_rx_gain RHODIUM_DEFAULT_INVALID_GAIN chan)) ;;
  lift (call_base (radio_ctrl_impl.set_rx_antenna RHODIUM_DEFAULT_RX_ANTENNA chan)) ;;
  lift (call_base (radio_ctrl_impl.set_rx_bandwidth RHODIUM_DEFAULT_BANDWIDTH chan)) ;;
  ret tt.

(** Body of the second loop of [_init_defaults]. *)
Definition _init_defaults_tx_chan (chan : nat) : W unit :=
  lift (call_base (radio_ctrl_impl.set_tx_frequency RHODIUM_DEFAULT_FREQ chan)) ;;
  lift (call_base (radio_ctrl_impl.set_tx_gain RHODIUM_DEFAULT_INVALID_GAIN chan)) ;;
  lift (call_base (radio_ctrl_impl.set_tx_antenna RHODIUM_DEFAULT_TX_ANTENNA chan)) ;;
  lift (call_base (radio_ctrl_impl.set_rx_bandwidth RHODIUM_DEFAULT_BANDWIDTH chan)) ;;
  ret tt.

(** The last block of [_init_defaults]: "Update default SPP (overwrites the
    default value from the XML file)".  The [size_t] is narrowed to the [int]
    of the node by the call of [set]. *)
Definition _init_defaults_spp : W unit :=
  mtu_recv <- tree_get TSizeT ["mtu"; "recv"] ;;
  tree_set TInt (get_arg_path "spp" </> "value") (to_int (default_spp mtu_recv)).

Definition _init_defaults : W unit :=
  o <- get_this ;;
  let num_rx_chans := length (get_output_ports o) in
  let num_tx_chans := length (get_input_ports o) in
  for_chan num_rx_chans 0 _init_defaults_rx_chan ;;
  for_chan num_tx_chans 0 _init_defaults_tx_chan ;;
  _init_defaults_spp.

(** [_init_peripherals].  The subtrees the frontend cores populate do not
    belong to this file; the calls are recorded with their paths. *)
Definition _init_peripherals : M unit :=
  (* Initializing SPI core *)
  invoke spi_core_3000_make ;;
  (* Initializing CPLD *)
  invoke (rhodium_cpld_ctrl_make
            (_generate_write_spi this_spi SEN_CPLD _get_cpld_spi_config)
            (_generate_read_spi this_spi SEN_CPLD _get_cpld_spi_config)) ;;
  (* Writing initial gain values *)
  invoke (set_tx_gain RHODIUM_DEFAULT_GAIN 0) ;;
  invoke (set_tx_lo_gain RHODIUM_DEFAULT_LO_GAIN RHODIUM_LO1 0) ;;
  invoke (set_rx_gain RHODIUM_DEFAULT_GAIN 0) ;;
  invoke (set_rx_lo_gain RHODIUM_DEFAULT_LO_GAIN RHODIUM_LO1 0) ;;
  (* Initializing TX LO *)
  invoke (lmx2592_iface_make
            (_generate_write_spi this_spi SEN_TX_LO _get_tx_lo_spi_config)
            (_generate_read_spi this_spi SEN_TX_LO _get_tx_lo_spi_config)) ;;
  (* Writing initial TX LO state *)
  invoke (_tx_lo_set_reference_frequency RHODIUM_LO1_REF_FREQ) ;;
  invoke (_tx_lo_set_mash_order THIRD) ;;
  (* Initializing RX LO *)
  invoke (lmx2592_iface_make
            (_generate_write_spi this_spi SEN_RX_LO _get_rx_lo_spi_config)
            (_generate_read_spi this_spi SEN_RX_LO _get_rx_lo_spi_config)) ;;
  (* Writing initial RX LO state *)
  invoke (_rx_lo_set_reference_frequency RHODIUM_LO1_REF_FREQ) ;;
  invoke (_rx_lo_set_mash_order THIRD) ;;
  (* Initializing GPIOs *)
  invoke gpio_atr_3000_make ;;
  invoke (_gpio_set_atr_mode MODE_GPIO MASK_SET_ALL) ;;
  invoke (_gpio_set_gpio_ddr DDR_OUTPUT MASK_SET_ALL) ;;
  (* Setting Switch 10 to 0x1 *)
  invoke (_gpio_set_gpio_out 1 3) ;;
  invoke (rx_frontend_core_3000_make RX_FE_BASE) ;;
  o <- gets this ;;
  invoke (_rx_fe_core_set_adc_rate (_master_clock_rate o)) ;;
  invoke _rx_fe_core_set_dc_offset ;;
  invoke _rx_fe_core_set_dc_offset_auto ;;
  o <- gets this ;;
  invoke (_rx_fe_core_populate_subtree (_root_path o </> "rx_fe_corrections" </> "0")) ;;
  invoke (tx_frontend_core_200_make TX_FE_BASE) ;;
  invoke _tx_fe_core_set_dc_offset ;;
  invoke _tx_fe_core_set_iq_balance ;;
  o <- gets this ;;
  invoke (_tx_fe_core_populate_subtree (_root_path o </> "tx_fe_corrections" </> "0")).

(** ** The gain setters of the controller *)

(** Modelled from the spec: [meta_range_t::clip] (ranges.cpp is not among
    the sources), the clamp of a gain "to a device-specific range". *)
Definition clip (r : range_t) (value : double) : double :=
  if PrimFloat.ltb value (start r) then start r
  else if PrimFloat.ltb (stop r) value then stop r
  else value.

(** Modelled from the spec: the stored gain the setter compares against. *)
Definition stored_gain (dir : direction_t) (chan : nat) : M double :=
  match dir with
  | TX_DIRECTION => call_base (radio_ctrl_impl.get_tx_gain chan)
  | RX_DIRECTION => call_base (radio_ctrl_impl.get_rx_gain chan)
  end.

(** Modelled from the spec: the store of the gain the hardware was given. *)
Definition store_gain (dir : direction_t) (index : double) (chan : nat) : M double :=
  match dir with
  | TX_DIRECTION => call_base (radio_ctrl_impl.set_tx_gain index chan)
  | RX_DIRECTION => call_base (radio_ctrl_impl.set_rx_gain index chan)
  end.

(** Modelled from the spec: [rhodium_radio_ctrl_impl::set_tx_gain] and
    [set_rx_gain] (rhodium_radio_ctrl_impl.cpp is not among the sources).
    The spec has the gain "clamped to a device-specific range" and written
    through "the gain-control path" by a coercion function that
    "short-circuits on value unchanged" against the stored gain. *)
Definition rhodium_set_gain (dir : direction_t) (gain : double) (chan : nat) : M double :=
  let index := clip (gain_range dir) gain in
  current <- stored_gain dir chan ;;
  if negb (PrimFloat.eqb current index)
  then invoke (_cpld_set_gain_index index dir) ;;
       store_gain dir index chan ;;
       ret index
  else ret index.

End Init.

(** ** Vocabulary of the statements *)

Section Vocabulary.
Context `{K : rhodium_constants} `{C : collaborators}.

(** The frontend directory of a direction, as [_init_mpm_sensors] selects it. *)
Definition frontend_path (dir : direction_t) (chan_idx : nat) : fs_path :=
  [if decide (dir = RX_DIRECTION) then "rx_frontends" else "tx_frontends"]
  </> to_string chan_idx.

(** [trx] of [_init_mpm_sensors]. *)
Definition trx_of (dir : direction_t) : string :=
  if decide (dir = RX_DIRECTION) then "RX" else "TX".

(** The nodes [_init_frontend_subtree] creates with a rejecting subscriber,
    by path below the subtree and type. *)
Definition read_only_nodes (chan_idx : nat) : list (fs_path * ty) :=
  let tx_fe_path := ["tx_frontends"] </> to_string chan_idx in
  let rx_fe_path := ["rx_frontends"] </> to_string chan_idx in
  [ (tx_fe_path </> "antenna" </> "options", TStrings);
    (rx_fe_path </> "antenna" </> "options", TStrings);
    (tx_fe_path </> "freq" </> "range", TRange);
    (rx_fe_path </> "freq" </> "range", TRange);
    (tx_fe_path </> "bandwidth" </> "range", TRange);
    (rx_fe_path </> "bandwidth" </> "range", TRange);
    (tx_fe_path </> "gains" </> "all" </> "range", TRange);
    (rx_fe_path </> "gains" </> "all" </> "range", TRange);
    (tx_fe_path </> "sensors" </> "lo_locked", TSensor);
    (rx_fe_path </> "sensors" </> "lo_locked", TSensor);
    (rx_fe_path </> "los" </> RHODIUM_LO1 </> "gains" </> RHODIUM_LO_GAIN </> "range", TRange);
    (rx_fe_path </> "los" </> RHODIUM_LO1 </> "gains" </> RHODIUM_LO_POWER </> "range", TRange);
    (tx_fe_path </> "los" </> RHODIUM_LO1 </> "gains" </> RHODIUM_LO_GAIN </> "range", TRange);
    (tx_fe_path </> "los" </> RHODIUM_LO1 </> "gains" </> RHODIUM_LO_POWER </> "range", TRange) ].

(** What the profile coercer returns for [profile]. *)
Definition normalized_profile (profile : string) : string :=
  if has RHODIUM_GP_OPTIONS profile then profile else "default".

(** The context [c] after [_gain_profile[dir] = profile]. *)
Definition with_gain_profile (dir : direction_t) (profile : string) (c : ctx) : ctx :=
  let o := this c in
  {| this := mk_rhodium (base o) (_radio_slot o) (_rpc_prefix o) (_root_path o)
               (_master_clock_rate o) (<[dir := profile]> (_gain_profile o)) (hw o);
     trace := trace c |}.

(** The path and the node of a remote sensor, as [_init_mpm_sensors] creates
    them from the controller object [o] it starts with. *)
Definition mpm_sensor_path (o : rhodium_radio_ctrl_impl HW) (dir : direction_t)
    (chan_idx : nat) (sensor_name : string) : fs_path :=
  ["dboards"] </> _radio_slot o
  </> (if decide (dir = RX_DIRECTION) then "rx_frontends" else "tx_frontends")
  </> to_string chan_idx </> "sensors" </> sensor_name.

Definition mpm_sensor_node (dir : direction_t) (chan_idx : nat) (sensor_name : string)
    : property (denote TSensor) :=
  new_property
  |.> add_coerced_subscriber (reject "Attempting to write to sensor!")
  |.> set_publisher (mpm_sensor_publisher (trx_of dir) sensor_name chan_idx).

(** The world [w] with the base-class state replaced. *)
Definition with_base (b : radio_ctrl_impl.t) (w : world) : world :=
  let o := this (context w) in
  mk_world (tree w)
    (mk_ctx (mk_rhodium b (_radio_slot o) (_rpc_prefix o) (_root_path o)
               (_master_clock_rate o) (_gain_profile o) (hw o))
            (trace (context w))).

Definition base_of (w : world) : radio_ctrl_impl.t := base (this (context w)).

(** The base-class state after one pass of each loop body of [_init_defaults]. *)
Definition rx_chan_defaults (chan : nat) (b : radio_ctrl_impl.t) : radio_ctrl_impl.t :=
  snd (radio_ctrl_impl.set_rx_bandwidth RHODIUM_DEFAULT_BANDWIDTH chan
    (snd (radio_ctrl_impl.set_rx_antenna RHODIUM_DEFAULT_RX_ANTENNA chan
      (snd (radio_ctrl_impl.set_rx_gain RHODIUM_DEFAULT_INVALID_GAIN chan
        (snd (radio_ctrl_impl.set_rx_frequency RHODIUM_DEFAULT_FREQ chan b))))))).

Definition tx_chan_defaults (chan : nat) (b : radio_ctrl_impl.t) : radio_ctrl_impl.t :=
  snd (radio_ctrl_impl.set_rx_bandwidth RHODIUM_DEFAULT_BANDWIDTH chan
    (snd (radio_ctrl_impl.set_tx_antenna RHODIUM_DEFAULT_TX_ANTENNA chan
      (snd (radio_ctrl_impl.set_tx_gain RHODIUM_DEFAULT_INVALID_GAIN chan
        (snd (radio_ctrl_impl.set_tx_frequency RHODIUM_DEFAULT_FREQ chan b))))))).

(** A loop over the channels whose body only rewrites the base-class state. *)
Fixpoint chan_loop (f : nat → radio_ctrl_impl.t → radio_ctrl_impl.t) (count first : nat)
    (b : radio_ctrl_impl.t) : radio_ctrl_impl.t :=
  match count with
  | O => b
  | S k => chan_loop f k (S first) (f first b)
  end.

(** The base-class state [_init_defaults] hands to its last block. *)
Definition defaults_base (w : world) : radio_ctrl_impl.t :=
  let o := this (context w) in
  chan_loop tx_chan_defaults (length (get_input_ports o)) 0
    (chan_loop rx_chan_defaults (length (get_output_ports o)) 0 (base_of w)).

(** The stored gain of a channel, as the base class holds it. *)
Definition gain_of (dir : direction_t) (b : radio_ctrl_impl.t) (chan : nat) : option double :=
  match dir with
  | TX_DIRECTION => radio_ctrl_impl._tx_gain b !! chan
  | RX_DIRECTION => radio_ctrl_impl._rx_gain b !! chan
  end.

(** The ports whose number bounds the channels of a direction in [_init_defaults]. *)
Definition ports_of (dir : direction_t) (o : rhodium_radio_ctrl_impl HW) : list nat :=
  match dir with
  | TX_DIRECTION => get_input_ports o
  | RX_DIRECTION => get_output_ports o
  end.

End Vocabulary.

(** The stage of the bring-up a call of [_init_peripherals] belongs to. *)
Inductive stage :=
| BusCore | ChipSelectCpld | GainWrites | TxOscillator | RxOscillator | Gpio
| RxFrontendCore | TxFrontendCore | NoStage.

Definition stage_index (s : stage) : nat :=
  match s with
  | BusCore => 0 | ChipSelectCpld => 1 | GainWrites => 2 | TxOscillator => 3
  | RxOscillator => 4 | Gpio => 5 | RxFrontendCore => 6 | TxFrontendCore => 7
  | NoStage => 8
  end.

Definition stage_of (m : method) : stage :=
  match m with
  | spi_core_3000_make => BusCore
  | rhodium_cpld_ctrl_make _ _ => ChipSelectCpld
  | set_tx_gain _ _ | set_tx_lo_gain _ _ _ | set_rx_gain _ _ | set_rx_lo_gain _ _ _ => GainWrites
  | lmx2592_iface_make write_fn _ =>
      match fn_slave write_fn with
      | SEN_TX_LO => TxOscillator
      | SEN_RX_LO => RxOscillator
      | _ => NoStage
      end
  | _tx_lo_set_reference_frequency _ | _tx_lo_set_mash_order _ => TxOscillator
  | _rx_lo_set_reference_frequency _ | _rx_lo_set_mash_order _ => RxOscillator
  | gpio_atr_3000_make | _gpio_set_atr_mode _ _ | _gpio_set_gpio_ddr _ _
  | _gpio_set_gpio_out _ _ => Gpio
  | rx_frontend_core_3000_make _ | _rx_fe_core_set_adc_rate _ | _rx_fe_core_set_dc_offset
  | _rx_fe_core_set_dc_offset_auto | _rx_fe_core_populate_subtree _ => RxFrontendCore
  | tx_frontend_core_200_make _ | _tx_fe_core_set_dc_offset | _tx_fe_core_set_iq_balance
  | _tx_fe_core_populate_subtree _ => TxFrontendCore
  | _ => NoStage
  end.

(** An initial gain write, and the instantiation of an oscillator synthesizer. *)
Definition is_gain_write (m : method) : bool :=
  match stage_of m with GainWrites => true | _ => false end.

Definition is_oscillator_make (m : method) : bool :=
  match m with lmx2592_iface_make _ _ => true | _ => false end.

(** The stages of a trace never go back. *)
Fixpoint ascending (from : nat) (ss : list stage) : bool :=
  match ss with
  | [] => true
  | s :: ss' => Nat.leb from (stage_index s) && ascending (stage_index s) ss'
  end.

Definition stages_ascend (l : list method) : bool := ascending 0 (stage_of <$> l).

(** The stages of a complete run of [_init_peripherals], call by call. *)
Definition peripheral_stages : list stage :=
  [BusCore; ChipSelectCpld; GainWrites; GainWrites; GainWrites; GainWrites;
   TxOscillator; TxOscillator; TxOscillator;
   RxOscillator; RxOscillator; RxOscillator;
   Gpio; Gpio; Gpio; Gpio;
   RxFrontendCore; RxFrontendCore; RxFrontendCore; RxFrontendCore; RxFrontendCore;
   TxFrontendCore; TxFrontendCore; TxFrontendCore; TxFrontendCore].

Section Emits.
Context `{C : collaborators}.

(** [m] appends calls whose stages are a prefix of [ss], and all of [ss]
    when it returns. *)
Definition emits {A} (m : M A) (ss : list stage) : Prop :=
  ∀ c : ctx, ∃ l : list method,
    trace (snd (m c)) = trace c ++ l
    ∧ (∃ rest, (stage_of <$> l) ++ rest = ss)
    ∧ (∀ a, fst (m c) = Ok a → stage_of <$> l = ss).

End Emits.

(** ** Sample parameters

    Values for the parameters of the development, to run it on: distinct
    oscillator and gain names, four header words as in the spec's example,
    one channel per direction. *)

Definition sample_constants : rhodium_constants := {|
  RHODIUM_LO1 := "lo1";
  RHODIUM_LO2 := "lo2";
  RHODIUM_LO_GAIN := "lo_gain";
  RHODIUM_LO_POWER := "lo_power";
  RHODIUM_RX_ANTENNAS := ["TX/RX"; "RX2"; "CAL"; "TERM"];
  RHODIUM_MIN_FREQ := 45e6%float;
  RHODIUM_MAX_FREQ := 6e9%float;
  RHODIUM_LO1_REF_FREQ := 122.88e6%float;
  max_if_hdr_words64 := 4;
  MASK_SET_ALL := 4294967295;
  gain_range := λ _, {| start := 0%float; stop := 60%float; step := 1%float |};
|}.

(** Collaborators that count the remote requests they serve: a sensor read
    reports the count, every other call returns the default of its type. *)
Definition sample_handler (m : method) (o : rhodium_radio_ctrl_impl nat)
    : outcome (denote (result_type m)) * rhodium_radio_ctrl_impl nat :=
  let served := mk_rhodium (base o) (_radio_slot o) (_rpc_prefix o) (_root_path o)
                  (_master_clock_rate o) (_gain_profile o) (S (hw o)) in
  match m return outcome (denote (result_type m)) * rhodium_radio_ctrl_impl nat with
  | request_with_token_strings _ _ => (Ok ["temperature"], served)
  | request_with_token_sensor_map _ _ => (Ok [("value", to_string (hw o))], served)
  | m' => (Ok (default_of (result_type m')), o)
  end.

Definition sample_collaborators : collaborators := {|
  HW := nat;
  handler := sample_handler;
  get_output_ports := λ _, [0];
  get_input_ports := λ _, [0];
  get_arg_path := λ name, ["args"; "0"; name];
|}.

Definition sample_object : rhodium_radio_ctrl_impl nat :=
  mk_rhodium (radio_ctrl_impl.mk ∅ ∅ ∅ ∅ ∅ ∅ ∅ ∅) "A" "db_0_"
    ["mboards"; "0"; "xbar"; "Radio_0"] 200e6%float ∅ 0.

Definition sample_ctx : @ctx sample_collaborators :=
  @mk_ctx sample_collaborators sample_object [].

(** A tree as the block hands it to [_init_defaults]: the transport's
    ["mtu/recv"] and an ["spp"] argument loaded with [old_spp]. *)
Definition sample_block_tree (mtu_recv old_spp : Z)
    : gmap (list string) {T : ty & @property sample_collaborators (denote T)} :=
  create (C := sample_collaborators) TSizeT ["mtu"; "recv"] (new_property |.> store mtu_recv)
    (create (C := sample_collaborators) TInt ["args"; "0"; "spp"; "value"]
       (new_property |.> store old_spp) ∅).

(** ** Vocabulary of the further properties *)

Section Calls.
Context `{K : rhodium_constants} `{C : collaborators}.


(** An exception out of [m] is the exception of the last call [m] made, and
    the controller object is left as that call left it. *)
Definition throws_from_last_call {A} (m : M A) : Prop :=
  ∀ (c : ctx) (e : exception), fst (m c) = Throw e →
    ∃ (l : list method) (x : method) (o : rhodium_radio_ctrl_impl HW),
      trace (snd (m c)) = trace c ++ l ++ [x]
      ∧ handler x o = (Throw e, this (snd (m c))).









End Calls.

(** Collaborators whose remote peripheral manager does not answer: the
    discovery of the sensors throws, every other call is served as by
    [sample_handler]. *)
Definition offline_handler (m : method) (o : rhodium_radio_ctrl_impl nat)
    : outcome (denote (result_type m)) * rhodium_radio_ctrl_impl nat :=
  match m return outcome (denote (result_type m)) * rhodium_radio_ctrl_impl nat with
  | request_with_token_strings _ _ => (Throw (CommunicationError "timeout"), o)
  | m' => sample_handler m' o
  end.

Definition offline_collaborators : collaborators := {|
  HW := nat;
  handler := offline_handler;
  get_output_ports := λ _, [0];
  get_input_ports := λ _, [0];
  get_arg_path := λ name, ["args"; "0"; name];
|}.

Definition offline_ctx : @ctx offline_collaborators :=
  @mk_ctx offline_collaborators sample_object [].

(** ** Vocabulary of the gains through the bring-up *)

Section GainVocabulary.
Context `{K : rhodium_constants} `{C : collaborators}.

(** The calls that write the stored gain of a channel. *)
Definition is_gain_setter (m : method) : bool :=
  match m with
  | set_tx_gain _ _ | set_rx_gain _ _ => true
  | _ => false
  end.

(** Modelled from the spec: the [set_tx_gain] and [set_rx_gain] the code
    calls (rhodium_radio_ctrl_impl.cpp is not among the sources) are the
    modelled setter: a call returns what [rhodium_set_gain] returns and
    leaves the controller object as [rhodium_set_gain] leaves it. *)
Definition gain_setters_modelled : Prop :=
  ∀ (gain : double) (chan : nat) (o : rhodium_radio_ctrl_impl HW),
    handler (set_tx_gain gain chan) o
    = (fst (rhodium_set_gain TX_DIRECTION gain chan (mk_ctx o [])),
       this (snd (rhodium_set_gain TX_DIRECTION gain chan (mk_ctx o []))))
    ∧ handler (set_rx_gain gain chan) o
      = (fst (rhodium_set_gain RX_DIRECTION gain chan (mk_ctx o [])),
         this (snd (rhodium_set_gain RX_DIRECTION gain chan (mk_ctx o [])))).

(** No other collaborator writes the stored gains. *)
Definition others_keep_gains : Prop :=
  ∀ (m : method) (o : rhodium_radio_ctrl_impl HW) (dir : direction_t) (chan : nat),
    is_gain_setter m = false →
    gain_of dir (base (snd (handler m o))) chan = gain_of dir (base o) chan.

(** [m] leaves the stored gains as they are, whether it returns or throws. *)
Definition keeps_gains {A} (m : M A) : Prop :=
  ∀ (c : ctx) (dir : direction_t) (chan : nat),
    gain_of dir (base (this (snd (m c)))) chan = gain_of dir (base (this c)) chan.

(** [Q] holds of the result and the state of [m] when it returns. *)
Definition on_return {A} (m : M A) (c : ctx) (Q : A → ctx → Prop) : Prop :=
  match m c with
  | (Ok a, c') => Q a c'
  | (Throw _, _) => True
  end.

End GainVocabulary.

(** Collaborators with a CPLD that logs the gain indices written to it, and
    a controller whose gain setters are the modelled setter over that
    hardware; two channels per direction. *)
Definition gain_hw_handler (m : method) (o : rhodium_radio_ctrl_impl (list (double * direction_t)))
    : outcome (denote (result_type m)) * rhodium_radio_ctrl_impl (list (double * direction_t)) :=
  match m return outcome (denote (result_type m))
                 * rhodium_radio_ctrl_impl (list (double * direction_t)) with
  | _cpld_set_gain_index index dir =>
      (Ok tt, mk_rhodium (base o) (_radio_slot o) (_rpc_prefix o) (_root_path o)
                (_master_clock_rate o) (_gain_profile o) (hw o ++ [(index, dir)]))
  | m' => (Ok (default_of (result_type m')), o)
  end.

Definition gain_hw_collaborators : collaborators := {|
  HW := list (double * direction_t);
  handler := gain_hw_handler;
  get_output_ports := λ _, [0; 1];
  get_input_ports := λ _, [0; 1];
  get_arg_path := λ name, ["args"; "0"; name];
|}.

Definition gain_handler (m : method) (o : rhodium_radio_ctrl_impl (list (double * direction_t)))
    : outcome (denote (result_type m)) * rhodium_radio_ctrl_impl (list (double * direction_t)) :=
  match m return outcome (denote (result_type m))
                 * rhodium_radio_ctrl_impl (list (double * direction_t)) with
  | set_tx_gain gain chan =>
      let r := rhodium_set_gain (K := sample_constants) (C := gain_hw_collaborators)
                 TX_DIRECTION gain chan (@mk_ctx gain_hw_collaborators o []) in
      (fst r, this (snd r))
  | set_rx_gain gain chan =>
      let r := rhodium_set_gain (K := sample_constants) (C := gain_hw_collaborators)
                 RX_DIRECTION gain chan (@mk_ctx gain_hw_collaborators o []) in
      (fst r, this (snd r))
  | m' => gain_hw_handler m' o
  end.

Definition gain_collaborators : collaborators := {|
  HW := list (double * direction_t);
  handler := gain_handler;
  get_output_ports := λ _, [0; 1];
  get_input_ports := λ _, [0; 1];
  get_arg_path := λ name, ["args"; "0"; name];
|}.

Definition gain_object : rhodium_radio_ctrl_impl (list (double * direction_t)) :=
  mk_rhodium (radio_ctrl_impl.mk ∅ ∅ ∅ ∅ ∅ ∅ ∅ ∅) "A" "db_0_"
    ["mboards"; "0"; "xbar"; "Radio_0"] 200e6%float ∅ [].

Definition gain_ctx : @ctx gain_collaborators := @mk_ctx gain_collaborators gain_object [].

Definition gain_block_tree
    : gmap (list string) {T : ty & @property gain_collaborators (denote T)} :=
  create (C := gain_collaborators) TSizeT ["mtu"; "recv"] (new_property |.> store 8000%Z)
    (create (C := gain_collaborators) TInt ["args"; "0"; "spp"; "value"]
       (new_property |.> store 364%Z) ∅).

(** ** Machine types and paths *)


Lemma lookup_insert_skip {A} (m : gmap (list string) A) (i j : list string) (x : A)
    (r : option A) :
  i ≠ j → m !! j = r → <[i:=x]> m !! j = r.
Proof. intros H <-. by apply lookup_insert_ne. Qed.

(** Two paths below the same subtree differ when their segments do. *)
Ltac path_neq :=
  let H := fresh "H" in
  intros H; apply app_inv_head in H;
  unfold frontend_path, fs_path_div in H; simpl in H; congruence.

(** Walk back over the nodes [_init_frontend_subtree] creates after the one
    looked up. *)
Ltac skip_created :=
  unfold _init_frontend_subtree, subtree_create, create;
  repeat (apply lookup_insert_skip; [path_neq|]).

Ltac find_created := skip_created; apply lookup_insert_eq.

(** ** Floats *)

Lemma ltb_not_eqb (x y : float) : PrimFloat.ltb x y = true → PrimFloat.eqb x y = false.
Proof.
  rewrite FloatAxioms.ltb_spec, FloatAxioms.eqb_spec. unfold SFltb, SFeqb.
  by destruct (SFcompare (Prim2SF x) (Prim2SF y)) as [[]|].
Qed.

Lemma eqb_invalid_gain (x : float) :
  PrimFloat.eqb RHODIUM_DEFAULT_INVALID_GAIN x = true → x = RHODIUM_DEFAULT_INVALID_GAIN.
Proof.
  rewrite FloatAxioms.eqb_spec. intros H. apply Prim2SF_inj.
  revert H. unfold SFeqb.
  change (Prim2SF RHODIUM_DEFAULT_INVALID_GAIN)
    with (S754_finite true 4503599627370496 (-52)).
  destruct (Prim2SF x) as [s|s| |s m e]; unfold SFcompare; try discriminate.
  - destruct s; discriminate.
  - destruct s; [|discriminate].
    destruct (Z.compare_spec (-52) e) as [<-| |]; try discriminate.
    change (Pcompare 4503599627370496 m Eq) with (Pos.compare 4503599627370496 m).
    destruct (Pos.compare_spec 4503599627370496 m) as [<-| |]; try discriminate.
    reflexivity.
Qed.

Lemma eqb_refl_above (x y : float) : PrimFloat.ltb y x = true → PrimFloat.eqb x x = true.
Proof.
  rewrite FloatAxioms.ltb_spec, FloatAxioms.eqb_spec.
  destruct (Prim2SF x) as [s|s| |s m e]; destruct (Prim2SF y) as [s'|s'| |s' m' e'];
    unfold SFltb, SFeqb, SFcompare; try discriminate; intros _;
    try (by destruct s);
    change (Pcompare m m Eq) with (Pos.compare m m);
    rewrite ?Z.compare_refl, ?Pos.compare_refl; by destruct s.
Qed.

(** ** Stages *)

Lemma ascending_prefix (from : nat) (ss rest : list stage) :
  ascending from (ss ++ rest) = true → ascending from ss = true.
Proof.
  revert from. induction ss as [|s ss IH]; intros from; [done|].
  simpl. rewrite !andb_true_iff. intros [? ?]. split; [done|]. by apply IH.
Qed.

Lemma ascending_lower_bound (from n : nat) (ss : list stage) (s : stage) :
  ascending from ss = true → ss !! n = Some s → (from ≤ stage_index s)%nat.
Proof.
  revert from n. induction ss as [|s' ss IH]; intros from n; [done|].
  simpl. rewrite andb_true_iff, Nat.leb_le. intros [? Hss] Hn.
  destruct n as [|n]; simpl in Hn.
  - injection Hn as ->. done.
  - specialize (IH _ _ Hss Hn). lia.
Qed.

Lemma ascending_order (ss : list stage) (from i j : nat) (a b : stage) :
  ascending from ss = true →
  ss !! i = Some a → ss !! j = Some b →
  (stage_index a < stage_index b)%nat → (i < j)%nat.
Proof.
  revert from i j. induction ss as [|s ss IH]; intros from i j; [done|].
  simpl. rewrite andb_true_iff, Nat.leb_le. intros [Hs Hss] Hi Hj Hlt.
  destruct i as [|i], j as [|j]; simpl in *.
  - injection Hi as ->. injection Hj as ->. lia.
  - lia.
  - injection Hj as ->. pose proof (ascending_lower_bound _ _ _ _ Hss Hi). lia.
  - specialize (IH _ _ _ Hss Hi Hj Hlt). lia.
Qed.

Lemma oscillator_make_stage (m : method) :
  is_oscillator_make m = true → (3 ≤ stage_index (stage_of m))%nat.
Proof.
  destruct m; try discriminate. intros _. simpl.
  destruct (fn_slave write_fn); simpl; lia.
Qed.

Lemma gain_write_stage (m : method) :
  is_gain_write m = true → stage_index (stage_of m) = 2%nat.
Proof. unfold is_gain_write. by destruct (stage_of m). Qed.

Section Proofs.
Context `{K : rhodium_constants} `{C : collaborators}.

(** ** The engine *)

Lemma cast_property_refl (T : ty) (p : property (denote T)) : cast_property T T p = Some p.
Proof. by destruct T. Qed.

Lemma access_lookup (T : ty) (t : property_tree) (path : fs_path) (p : property (denote T)) :
  t !! path = Some (existT T p) → access T t path = Ok p.
Proof. intros H. unfold access. by rewrite H, cast_property_refl. Qed.

Lemma tree_set_lookup (T : ty) (path : fs_path) (v : denote T) (t : property_tree) (c : ctx)
    (p : property (denote T)) :
  t !! path = Some (existT T p) →
  tree_set T path v (mk_world t c) =
    (let '(r, p', c') := property_set p v c in
     (r, mk_world (<[path := existT T p']> t) c')).
Proof. intros H. unfold tree_set. simpl. by rewrite (access_lookup _ _ _ _ H). Qed.

Lemma tree_get_lookup (T : ty) (path : fs_path) (t : property_tree) (c : ctx)
    (p : property (denote T)) :
  t !! path = Some (existT T p) →
  tree_get T path (mk_world t c) = lift (property_get p) (mk_world t c).
Proof. intros H. unfold tree_get. simpl. by rewrite (access_lookup _ _ _ _ H). Qed.

Lemma stored_at_lookup (T : ty) (path : fs_path) (t : property_tree) (p : property (denote T)) :
  t !! path = Some (existT T p) → stored_at T t path = stored p.
Proof. intros H. unfold stored_at. by rewrite (access_lookup _ _ _ _ H). Qed.

(** A fresh node has neither coercer nor subscriber: the [set] of its call
    chain is the plain [store]. *)
Lemma property_set_new {A} (v : A) (c : ctx) :
  property_set new_property v c = (Ok tt, store v new_property, c).
Proof. reflexivity. Qed.

Lemma tree_set_read_only (T : ty) (path : fs_path) (v : denote T) (t : property_tree)
    (c : ctx) (p : property (denote T)) (what : string) :
  t !! path = Some (existT T p) →
  coercer p = None →
  subscribers p = [reject what] →
  tree_set T path v (mk_world t c)
  = (Throw (runtime_error what), mk_world (<[path := existT T (store v p)]> t) c).
Proof.
  intros H Hc Hs. rewrite (tree_set_lookup _ _ _ _ _ _ H).
  unfold property_set. rewrite Hc, Hs. reflexivity.
Qed.

Lemma tree_set_stored (T : ty) (path : fs_path) (v : denote T) (t : property_tree) (c : ctx)
    (p : property (denote T)) :
  t !! path = Some (existT T p) →
  coercer p = None →
  stored_at T (tree (snd (tree_set T path v (mk_world t c)))) path = Some v.
Proof.
  intros H Hc. rewrite (tree_set_lookup _ _ _ _ _ _ H).
  unfold property_set. rewrite Hc. unfold ret.
  destruct (notify (subscribers p) v c) as [r c2]. simpl.
  erewrite stored_at_lookup by apply lookup_insert_eq. reflexivity.
Qed.

Lemma tree_get_stored (T : ty) (path : fs_path) (v : denote T) (t : property_tree) (c : ctx)
    (p : property (denote T)) :
  t !! path = Some (existT T p) →
  publisher p = None →
  stored p = Some v →
  tree_get T path (mk_world t c) = (Ok v, mk_world t c).
Proof.
  intros H Hp Hv. rewrite (tree_get_lookup _ _ _ _ _ H).
  unfold property_get. by rewrite Hp, Hv.
Qed.

Lemma tree_get_publisher (T : ty) (path : fs_path) (t : property_tree) (c : ctx)
    (p : property (denote T)) (pub : M (denote T)) :
  t !! path = Some (existT T p) →
  publisher p = Some pub →
  tree_get T path (mk_world t c) = lift pub (mk_world t c).
Proof.
  intros H Hp. rewrite (tree_get_lookup _ _ _ _ _ H). unfold property_get. by rewrite Hp.
Qed.

Lemma lift_tree {A} (m : M A) (t : property_tree) (c : ctx) :
  tree (snd (lift m (mk_world t c))) = t.
Proof. unfold lift. simpl. by destruct (m c). Qed.

Lemma published_reads (T : ty) (path : fs_path) (t : property_tree)
    (c : ctx) (p : property (denote T)) (pub : M (denote T)) :
  t !! path = Some (existT T p) →
  publisher p = Some pub →
  tree_get T path (mk_world t c) = lift pub (mk_world t c)
  ∧ tree (snd (tree_get T path (mk_world t c))) = t
  ∧ (x <- tree_get T path ;; y <- tree_get T path ;; ret (x, y)) (mk_world t c)
    = lift (x <- pub ;; y <- pub ;; ret (x, y)) (mk_world t c).
Proof.
  intros H Hp.
  pose proof (tree_get_publisher T path t c p pub H Hp) as E.
  split; [exact E|split].
  - rewrite E. apply lift_tree.
  - unfold bind. rewrite E. unfold lift, ret. simpl.
    destruct (pub c) as [[x|e] c1]; simpl; [|reflexivity].
    rewrite (tree_get_publisher T path t c1 p pub H Hp). unfold lift. simpl.
    destruct (pub c1) as [[y|e] c2]; reflexivity.
Qed.

(** ** Nodes of the frontend subtree *)

Lemma lookup_profile_value (dir : direction_t) (subtree : fs_path) (chan : nat)
    (t : property_tree) :
  _init_frontend_subtree subtree chan t
    !! (subtree ++ (frontend_path dir chan </> "gains" </> "all" </> "profile" </> "value"))
  = Some (existT TString (new_property
                          |.> set_coercer (gain_profile_coercer dir)
                          |.> set_publisher (get_gain_profile dir))).
Proof. destruct dir; find_created. Qed.



Ltac read_only_found :=
  eexists _, _; split; [find_created | split; reflexivity].

Lemma read_only_nodes_lookup (subtree : fs_path) (chan : nat) (t : property_tree)
    (path : fs_path) (T : ty) :
  (path, T) ∈ read_only_nodes chan →
  ∃ (p : property (denote T)) (what : string),
    _init_frontend_subtree subtree chan t !! (subtree ++ path) = Some (existT T p)
    ∧ coercer p = None
    ∧ subscribers p = [reject what].
Proof.
  unfold read_only_nodes. cbv zeta. intros Hin.
  repeat (apply elem_of_cons in Hin as [Hin|Hin];
          [injection Hin as -> ->;
           first [ solve [read_only_found]
                 | destruct (decide (RHODIUM_LO_GAIN = RHODIUM_LO_POWER)) as [E|E];
                   [rewrite E|]; read_only_found ]|]).
  by apply elem_of_nil in Hin.
Qed.

(** ** The gain profile *)

Lemma gain_profile_coercer_run (dir : direction_t) (profile : string) (c : ctx) :
  gain_profile_coercer dir profile c
  = (Ok (normalized_profile profile), with_gain_profile dir (normalized_profile profile) c).
Proof.
  unfold gain_profile_coercer, normalized_profile, bind, set_gain_profile, modify, ret.
  by destruct (has RHODIUM_GP_OPTIONS profile).
Qed.

Lemma get_gain_profile_run (dir : direction_t) (profile : string) (c : ctx) :
  get_gain_profile dir (with_gain_profile dir profile c)
  = (Ok profile, with_gain_profile dir profile c).
Proof. unfold get_gain_profile, with_gain_profile. simpl. by rewrite lookup_insert_eq. Qed.

Lemma profile_set_run (dir : direction_t) (path : fs_path) (profile : string)
    (t : property_tree) (c : ctx) :
  t !! path = Some (existT TString (new_property
                          |.> set_coercer (gain_profile_coercer dir)
                          |.> set_publisher (get_gain_profile dir))) →
  tree_set TString path profile (mk_world t c)
  = (Ok tt,
     mk_world (<[path := existT TString
                    (new_property
                     |.> set_coercer (gain_profile_coercer dir)
                     |.> set_publisher (get_gain_profile dir)
                     |.> store (normalized_profile profile))]> t)
              (with_gain_profile dir (normalized_profile profile) c)).
Proof.
  intros H. rewrite (tree_set_lookup _ _ _ _ _ _ H).
  unfold property_set, set_publisher, set_coercer, new_property.
  cbn [coercer subscribers stored publisher].
  by rewrite gain_profile_coercer_run.
Qed.

Lemma profile_get_run (dir : direction_t) (path : fs_path) (profile : string)
    (t : property_tree) (c : ctx) (p : property (denote TString)) :
  t !! path = Some (existT TString p) →
  publisher p = Some (get_gain_profile dir) →
  tree_get TString path (mk_world t (with_gain_profile dir profile c))
  = (Ok profile, mk_world t (with_gain_profile dir profile c)).
Proof.
  intros H Hp. rewrite (tree_get_lookup TString path t _ p H).
  unfold lift, property_get. rewrite Hp. simpl. by rewrite get_gain_profile_run.
Qed.

(** ** Default initialisation *)

Lemma with_base_with_base (b b' : radio_ctrl_impl.t) (w : world) :
  with_base b (with_base b' w) = with_base b w.
Proof. reflexivity. Qed.

Lemma base_of_with_base (b : radio_ctrl_impl.t) (w : world) : base_of (with_base b w) = b.
Proof. reflexivity. Qed.

Lemma with_base_id (w : world) : with_base (base_of w) w = w.
Proof. by destruct w as [t [[] tr]]. Qed.

Lemma _init_defaults_rx_chan_run (chan : nat) (w : world) :
  _init_defaults_rx_chan chan w = (Ok tt, with_base (rx_chan_defaults chan (base_of w)) w).
Proof. reflexivity. Qed.

Lemma _init_defaults_tx_chan_run (chan : nat) (w : world) :
  _init_defaults_tx_chan chan w = (Ok tt, with_base (tx_chan_defaults chan (base_of w)) w).
Proof. reflexivity. Qed.

Lemma for_chan_base (body : nat → W unit) (f : nat → radio_ctrl_impl.t → radio_ctrl_impl.t)
    (count first : nat) (w : world) :
  (∀ chan w0, body chan w0 = (Ok tt, with_base (f chan (base_of w0)) w0)) →
  for_chan count first body w
  = (Ok tt, with_base (chan_loop f count first (base_of w)) w).
Proof.
  intros Hbody. revert first w. induction count as [|k IH]; intros first w.
  - simpl. by rewrite with_base_id.
  - simpl. unfold bind. rewrite Hbody, IH.
    by rewrite with_base_with_base, base_of_with_base.
Qed.

Lemma tx_loop_invariant (count first : nat) (b : radio_ctrl_impl.t) :
  let b' := chan_loop tx_chan_defaults count first b in
  radio_ctrl_impl._tx_bandwidth b' = radio_ctrl_impl._tx_bandwidth b
  ∧ radio_ctrl_impl._rx_gain b' = radio_ctrl_impl._rx_gain b
  ∧ (∀ chan, (first ≤ chan < first + count)%nat →
       radio_ctrl_impl._rx_bandwidth b' !! chan = Some RHODIUM_DEFAULT_BANDWIDTH
       ∧ radio_ctrl_impl._tx_gain b' !! chan = Some RHODIUM_DEFAULT_INVALID_GAIN)
  ∧ (∀ chan, (chan < first)%nat →
       radio_ctrl_impl._rx_bandwidth b' !! chan = radio_ctrl_impl._rx_bandwidth b !! chan
       ∧ radio_ctrl_impl._tx_gain b' !! chan = radio_ctrl_impl._tx_gain b !! chan).
Proof.
  revert first b. induction count as [|k IH]; intros first b; simpl.
  - repeat split; intros; lia.
  - destruct (IH (S first) (tx_chan_defaults first b)) as (H1 & H2 & H3 & H4).
    split; [by rewrite H1|]. split; [by rewrite H2|]. split.
    + intros chan Hc. destruct (decide (chan = first)) as [->|Hne].
      * destruct (H4 first ltac:(lia)) as [-> ->]. simpl.
        by rewrite !lookup_insert_eq.
      * apply H3. lia.
    + intros chan Hc. destruct (H4 chan ltac:(lia)) as [-> ->]. simpl.
      rewrite !lookup_insert_ne by lia. done.
Qed.

Lemma rx_loop_invariant (count first : nat) (b : radio_ctrl_impl.t) :
  let b' := chan_loop rx_chan_defaults count first b in
  radio_ctrl_impl._tx_bandwidth b' = radio_ctrl_impl._tx_bandwidth b
  ∧ radio_ctrl_impl._tx_gain b' = radio_ctrl_impl._tx_gain b
  ∧ (∀ chan, (first ≤ chan < first + count)%nat →
       radio_ctrl_impl._rx_bandwidth b' !! chan = Some RHODIUM_DEFAULT_BANDWIDTH
       ∧ radio_ctrl_impl._rx_gain b' !! chan = Some RHODIUM_DEFAULT_INVALID_GAIN)
  ∧ (∀ chan, (chan < first)%nat →
       radio_ctrl_impl._rx_bandwidth b' !! chan = radio_ctrl_impl._rx_bandwidth b !! chan
       ∧ radio_ctrl_impl._rx_gain b' !! chan = radio_ctrl_impl._rx_gain b !! chan).
Proof.
  revert first b. induction count as [|k IH]; intros first b; simpl.
  - repeat split; intros; lia.
  - destruct (IH (S first) (rx_chan_defaults first b)) as (H1 & H2 & H3 & H4).
    split; [by rewrite H1|]. split; [by rewrite H2|]. split.
    + intros chan Hc. destruct (decide (chan = first)) as [->|Hne].
      * destruct (H4 first ltac:(lia)) as [-> ->]. simpl.
        by rewrite !lookup_insert_eq.
      * apply H3. lia.
    + intros chan Hc. destruct (H4 chan ltac:(lia)) as [-> ->]. simpl.
      rewrite !lookup_insert_ne by lia. done.
Qed.

(** [_init_defaults] is its two loops, which only rewrite the base-class
    state, followed by the write of the default spp. *)
Lemma _init_defaults_run (w : world) :
  _init_defaults w = _init_defaults_spp (with_base (defaults_base w) w).
Proof.
  unfold _init_defaults, bind, get_this, gets. cbv zeta.
  rewrite (for_chan_base _ _ _ _ _ _init_defaults_rx_chan_run).
  rewrite (for_chan_base _ _ _ _ _ _init_defaults_tx_chan_run).
  by rewrite with_base_with_base, base_of_with_base.
Qed.

Lemma defaults_gain (w : world) (dir : direction_t) (chan : nat) :
  (chan < length (ports_of dir (this (context w))))%nat →
  gain_of dir (defaults_base w) chan = Some RHODIUM_DEFAULT_INVALID_GAIN.
Proof.
  intros Hc. unfold defaults_base.
  destruct (tx_loop_invariant (length (get_input_ports (this (context w)))) 0
              (chan_loop rx_chan_defaults (length (get_output_ports (this (context w)))) 0
                 (base_of w))) as (_ & H2 & H3 & _).
  destruct (rx_loop_invariant (length (get_output_ports (this (context w)))) 0 (base_of w))
    as (_ & _ & H3' & _).
  destruct dir; simpl in *.
  - rewrite H2. apply H3'. lia.
  - apply H3. lia.
Qed.

Lemma default_spp_in_range (mtu : Z) :
  (0 ≤ max_if_hdr_words64)%Z →
  (max_if_hdr_words64 * 8 ≤ mtu < 2 ^ 64)%Z →
  ((mtu - max_if_hdr_words64 * 8) / (2 * 2) < 2 ^ 31)%Z →
  to_int (default_spp mtu) = ((mtu - max_if_hdr_words64 * 8) / (2 * 2))%Z.
Proof.
  intros Hw Hmtu Hq. unfold default_spp, to_int, to_size_t, sizeof_uint64_t, sizeof_int16_t.
  cbv zeta.
  rewrite (Z.mod_small (max_if_hdr_words64 * 8)) by lia.
  rewrite (Z.mod_small (mtu - max_if_hdr_words64 * 8)) by lia.
  rewrite (Z.mod_small (2 * 2)) by lia.
  assert (0 ≤ (mtu - max_if_hdr_words64 * 8) / (2 * 2))%Z by (apply Z.div_pos; lia).
  rewrite (Z.mod_small ((mtu - max_if_hdr_words64 * 8) / (2 * 2))) by lia.
  rewrite Z.mod_small by lia. lia.
Qed.

(** ** The gain setter *)

Lemma clip_never_invalid (r : range_t) (gain : double) :
  PrimFloat.ltb RHODIUM_DEFAULT_INVALID_GAIN (start r) = true →
  PrimFloat.ltb RHODIUM_DEFAULT_INVALID_GAIN (stop r) = true →
  PrimFloat.eqb RHODIUM_DEFAULT_INVALID_GAIN (clip r gain) = false.
Proof.
  intros Hstart Hstop. unfold clip.
  destruct (PrimFloat.ltb gain (start r)) eqn:E1; [by apply ltb_not_eqb|].
  destruct (PrimFloat.ltb (stop r) gain) eqn:E2; [by apply ltb_not_eqb|].
  destruct (PrimFloat.eqb RHODIUM_DEFAULT_INVALID_GAIN gain) eqn:E3; [|done].
  apply eqb_invalid_gain in E3. subst gain. congruence.
Qed.

Lemma rhodium_set_gain_from_invalid (dir : direction_t) (gain : double) (chan : nat) (c : ctx) :
  gain_of dir (base (this c)) chan = Some RHODIUM_DEFAULT_INVALID_GAIN →
  PrimFloat.eqb RHODIUM_DEFAULT_INVALID_GAIN (clip (gain_range dir) gain) = false →
  rhodium_set_gain dir gain chan c
  = (x <- invoke (_cpld_set_gain_index (clip (gain_range dir) gain) dir) ;;
     store_gain dir (clip (gain_range dir) gain) chan ;;
     ret (clip (gain_range dir) gain)) c.
Proof.
  intros Hg Hne. unfold rhodium_set_gain. cbv zeta. unfold bind at 1.
  destruct dir; simpl in Hg; unfold stored_gain, call_base;
    [unfold radio_ctrl_impl.get_rx_gain | unfold radio_ctrl_impl.get_tx_gain];
    rewrite Hg; rewrite Hne; simpl; by destruct c as [[] ?].
Qed.

(** ** Peripherals *)

Lemma emits_invoke (m : method) : emits (invoke m) [stage_of m].
Proof.
  intros c. exists [m]. unfold invoke.
  destruct (handler m (this c)) as [r o]. simpl.
  split; [done|]. split; [by exists []|done].
Qed.

Lemma emits_invoke_bind {A} (m : method) (k : denote (result_type m) → M A)
    (ss : list stage) :
  (∀ a, emits (k a) ss) → emits (bind (invoke m) k) (stage_of m :: ss).
Proof.
  intros Hk c. unfold bind, invoke.
  destruct (handler m (this c)) as [[a|e] o].
  - destruct (Hk a (mk_ctx o (trace c ++ [m]))) as (l & H1 & [rest H2] & H3).
    exists (m :: l). split; [by rewrite (cons_middle m (trace c) l), app_assoc|].
    split; [exists rest; by rewrite fmap_cons, <- H2|].
    intros a' Ha. by rewrite fmap_cons, (H3 a' Ha).
  - exists [m]. simpl. split; [done|]. split; [by exists ss|done].
Qed.

Lemma emits_gets_bind {A B} (f : ctx → A) (k : A → M B) (ss : list stage) :
  (∀ a, emits (k a) ss) → emits (bind (gets f) k) ss.
Proof. intros Hk c. apply (Hk (f c) c). Qed.

Lemma _init_peripherals_emits : emits _init_peripherals peripheral_stages.
Proof.
  unfold _init_peripherals, peripheral_stages.
  repeat match goal with
         | |- emits (bind (gets _) _) _ => apply emits_gets_bind; intros ?
         | |- emits (bind (invoke _) _) _ => apply emits_invoke_bind; intros ?
         end.
  match goal with |- emits (invoke ?m) _ => exact (emits_invoke m) end.
Qed.

(** ** Remote sensors *)

Lemma for_each_update_tree {A} (l : list A) (f : A → property_tree → property_tree)
    (w : world) :
  for_each l (λ x, update_tree (f x)) w
  = (Ok tt, mk_world (foldl (λ t x, f x t) (tree w) l) (context w)).
Proof.
  revert w. induction l as [|x l IH]; intros w.
  - by destruct w.
  - simpl. unfold bind, update_tree at 1, modify. rewrite IH. reflexivity.
Qed.

Lemma foldl_create_lookup (T : ty) (dir_path : fs_path) (node : string → property (denote T))
    (l : list string) (t : property_tree) (name : string) :
  name ∈ l →
  foldl (λ t x, create T (dir_path </> x) (node x) t) t l !! (dir_path </> name)
  = Some (existT T (node name)).
Proof.
  induction l as [|x l IH] using rev_ind; intros Hin.
  - by apply elem_of_nil in Hin.
  - rewrite foldl_app. simpl. unfold create at 1.
    destruct (decide (x = name)) as [->|Hne].
    + apply lookup_insert_eq.
    + rewrite lookup_insert_ne.
      * apply IH. apply elem_of_app in Hin as [Hin|Hin]; [done|].
        apply list_elem_of_singleton in Hin. congruence.
      * unfold fs_path_div. intros E. apply app_inv_head in E. congruence.
Qed.

Lemma _init_mpm_sensors_run (dir : direction_t) (chan : nat) (w : world)
    (sensor_list : list string) (o' : rhodium_radio_ctrl_impl HW) :
  handler (request_with_token_strings (_rpc_prefix (this (context w)) +:+ "get_sensors")
             [arg_string (trx_of dir)]) (this (context w)) = (Ok sensor_list, o') →
  _init_mpm_sensors dir chan w
  = (Ok tt,
     mk_world (foldl (λ t x, create TSensor
                               (["dboards"] </> _radio_slot (this (context w))
                                </> (if decide (dir = RX_DIRECTION)
                                     then "rx_frontends" else "tx_frontends")
                                </> to_string chan </> "sensors" </> x)
                               (mpm_sensor_node dir chan x) t)
                     (tree w) sensor_list)
              (mk_ctx o' (trace (context w)
                          ++ [request_with_token_strings
                                (_rpc_prefix (this (context w)) +:+ "get_sensors")
                                [arg_string (trx_of dir)]]))).
Proof.
  intros H. unfold _init_mpm_sensors, bind at 1, get_this, gets.
  unfold bind at 1, lift, invoke. fold (trx_of dir). rewrite H.
  rewrite for_each_update_tree. reflexivity.
Qed.

Lemma mpm_sensor_publisher_run (trx sensor_name : string) (chan : nat) (c : ctx) :
  mpm_sensor_publisher trx sensor_name chan c
  = (let request := request_with_token_sensor_map (_rpc_prefix (this c) +:+ "get_sensor")
                      [arg_string trx; arg_string sensor_name; arg_size_t chan] in
     (outcome_map sensor_of_map (fst (handler request (this c))),
      mk_ctx (snd (handler request (this c))) (trace c ++ [request]))).
Proof.
  unfold mpm_sensor_publisher, bind, gets, invoke, ret. cbv zeta.
  by destruct (handler _ (this c)) as [[m|e] o].
Qed.

(** ** Gains through the bring-up *)

Lemma on_return_bind {A B} (m : M A) (k : A → M B) (c : ctx) (Q : B → ctx → Prop) :
  on_return m c (λ a c', on_return (k a) c' Q) → on_return (bind m k) c Q.
Proof. unfold on_return, bind. by destruct (m c) as [[a|e] c']. Qed.

Lemma on_return_gets_bind {A B} (f : ctx → A) (k : A → M B) (c : ctx) (Q : B → ctx → Prop) :
  on_return (k (f c)) c Q → on_return (bind (gets f) k) c Q.
Proof. done. Qed.

Lemma on_return_keeps {A} (m : M A) (c : ctx) (Q : A → ctx → Prop) :
  keeps_gains m →
  (∀ a c', (∀ dir chan, gain_of dir (base (this c')) chan = gain_of dir (base (this c)) chan) →
           Q a c') →
  on_return m c Q.
Proof.
  intros Hm HQ. unfold on_return. pose proof (Hm c) as H.
  destruct (m c) as [[a|e] c']; [|done]. by apply HQ.
Qed.

Lemma keeps_gains_invoke (m : method) :
  others_keep_gains → is_gain_setter m = false → keeps_gains (invoke m).
Proof.
  intros Hk Hm c dir chan. unfold invoke. pose proof (Hk m (this c) dir chan Hm) as H.
  by destruct (handler m (this c)).
Qed.

Lemma keeps_gains_invoke_bind {A} (m : method) (k : denote (result_type m) → M A) :
  others_keep_gains → is_gain_setter m = false →
  (∀ a, keeps_gains (k a)) → keeps_gains (bind (invoke m) k).
Proof.
  intros Hk Hm Hc c dir chan. unfold bind, invoke.
  pose proof (Hk m (this c) dir chan Hm) as H.
  destruct (handler m (this c)) as [[a|e] o]; [|done].
  by rewrite (Hc a).
Qed.

Lemma keeps_gains_gets_bind {A B} (f : ctx → A) (k : A → M B) :
  (∀ a, keeps_gains (k a)) → keeps_gains (bind (gets f) k).
Proof. intros Hk c. apply (Hk (f c) c). Qed.

(** What a returning gain set leaves stored. *)
Lemma rhodium_set_gain_stored (dir : direction_t) (gain : double) (chan : nat)
    (c c' : ctx) (index : double) :
  others_keep_gains →
  rhodium_set_gain dir gain chan c = (Ok index, c') →
  (∃ s, gain_of dir (base (this c')) chan = Some s
        ∧ (s = clip (gain_range dir) gain
           ∨ PrimFloat.eqb s (clip (gain_range dir) gain) = true))
  ∧ (∀ chan', chan' ≠ chan →
       gain_of dir (base (this c')) chan' = gain_of dir (base (this c)) chan')
  ∧ (∀ dir' chan', dir' ≠ dir →
       gain_of dir' (base (this c')) chan' = gain_of dir' (base (this c)) chan').
Proof.
  intros Hk. unfold rhodium_set_gain. cbv zeta. unfold bind at 1.
  destruct dir; unfold stored_gain, call_base;
    [unfold radio_ctrl_impl.get_rx_gain | unfold radio_ctrl_impl.get_tx_gain].
  - destruct (radio_ctrl_impl._rx_gain (base (this c)) !! chan) as [s0|] eqn:E0;
      cbn [radio_ctrl_impl.set_rx_gain];
      match goal with
      | |- context [negb (PrimFloat.eqb ?a ?b)] => destruct (PrimFloat.eqb a b) eqn:Eq
      end; cbn [negb].
    + intros [= <- <-]. simpl. split; [exists s0; by split; [|right]|]. by split.
    + unfold bind, invoke. cbn [this trace].
      match goal with
      | |- context [handler ?m ?o] =>
          pose proof (λ dir chan, Hk m o dir chan eq_refl) as Hh;
          destruct (handler m o) as [[a|e] o']
      end; [|discriminate]. cbn [snd] in Hh.
      unfold store_gain, call_base, ret. cbn. intros [= <- <-]. cbn.
      split; [exists (clip (gain_range RX_DIRECTION) gain);
              split; [apply lookup_insert_eq|by left]|].
      split.
      * intros chan' Hne. rewrite lookup_insert_ne by done. apply (Hh RX_DIRECTION).
      * intros [|] chan' Hne; [done|]. apply (Hh TX_DIRECTION).
    + intros [= <- <-]. simpl.
      split; [exists 0%float; split; [apply lookup_insert_eq|by right]|].
      split; [intros chan' Hne; by rewrite lookup_insert_ne|].
      by intros [|] chan' Hne.
    + unfold bind, invoke. cbn [this trace].
      match goal with
      | |- context [handler ?m ?o] =>
          pose proof (λ dir chan, Hk m o dir chan eq_refl) as Hh;
          destruct (handler m o) as [[a|e] o']
      end; [|discriminate]. cbn [snd] in Hh.
      unfold store_gain, call_base, ret. cbn. intros [= <- <-]. cbn.
      split; [exists (clip (gain_range RX_DIRECTION) gain);
              split; [apply lookup_insert_eq|by left]|].
      split.
      * intros chan' Hne. rewrite lookup_insert_ne by done.
        etransitivity; [apply (Hh RX_DIRECTION)|]. simpl. by rewrite lookup_insert_ne.
      * intros [|] chan' Hne; [done|]. apply (Hh TX_DIRECTION).
  - destruct (radio_ctrl_impl._tx_gain (base (this c)) !! chan) as [s0|] eqn:E0;
      cbn [radio_ctrl_impl.set_tx_gain];
      match goal with
      | |- context [negb (PrimFloat.eqb ?a ?b)] => destruct (PrimFloat.eqb a b) eqn:Eq
      end; cbn [negb].
    + intros [= <- <-]. simpl. split; [exists s0; by split; [|right]|]. by split.
    + unfold bind, invoke. cbn [this trace].
      match goal with
      | |- context [handler ?m ?o] =>
          pose proof (λ dir chan, Hk m o dir chan eq_refl) as Hh;
          destruct (handler m o) as [[a|e] o']
      end; [|discriminate]. cbn [snd] in Hh.
      unfold store_gain, call_base, ret. cbn. intros [= <- <-]. cbn.
      split; [exists (clip (gain_range TX_DIRECTION) gain);
              split; [apply lookup_insert_eq|by left]|].
      split.
      * intros chan' Hne. rewrite lookup_insert_ne by done. apply (Hh TX_DIRECTION).
      * intros [|] chan' Hne; [|done]. apply (Hh RX_DIRECTION).
    + intros [= <- <-]. simpl.
      split; [exists 0%float; split; [apply lookup_insert_eq|by right]|].
      split; [intros chan' Hne; by rewrite lookup_insert_ne|].
      by intros [|] chan' Hne.
    + unfold bind, invoke. cbn [this trace].
      match goal with
      | |- context [handler ?m ?o] =>
          pose proof (λ dir chan, Hk m o dir chan eq_refl) as Hh;
          destruct (handler m o) as [[a|e] o']
      end; [|discriminate]. cbn [snd] in Hh.
      unfold store_gain, call_base, ret. cbn. intros [= <- <-]. cbn.
      split; [exists (clip (gain_range TX_DIRECTION) gain);
              split; [apply lookup_insert_eq|by left]|].
      split.
      * intros chan' Hne. rewrite lookup_insert_ne by done.
        etransitivity; [apply (Hh TX_DIRECTION)|]. simpl. by rewrite lookup_insert_ne.
      * intros [|] chan' Hne; [|done]. apply (Hh RX_DIRECTION).
Qed.

Lemma on_return_set_tx_gain {A} (gain : double) (chan : nat) (k : double → M A) (c : ctx)
    (Q : A → ctx → Prop) :
  gain_setters_modelled → others_keep_gains →
  (∀ a c',
     (∃ s, gain_of TX_DIRECTION (base (this c')) chan = Some s
           ∧ (s = clip (gain_range TX_DIRECTION) gain
              ∨ PrimFloat.eqb s (clip (gain_range TX_DIRECTION) gain) = true)) →
     (∀ chan', chan' ≠ chan →
        gain_of TX_DIRECTION (base (this c')) chan'
        = gain_of TX_DIRECTION (base (this c)) chan') →
     (∀ chan', gain_of RX_DIRECTION (base (this c')) chan'
               = gain_of RX_DIRECTION (base (this c)) chan') →
     on_return (k a) c' Q) →
  on_return (bind (invoke (set_tx_gain gain chan)) k) c Q.
Proof.
  intros Hm Hk HQ. unfold on_return, bind, invoke.
  destruct (Hm gain chan (this c)) as [-> _].
  destruct (rhodium_set_gain TX_DIRECTION gain chan (mk_ctx (this c) [])) as [[a|e] c1] eqn:E;
    [|done].
  destruct (rhodium_set_gain_stored _ _ _ _ _ _ Hk E) as (H1 & H2 & H3).
  apply HQ; [exact H1|exact H2|].
  intros chan'. by apply (H3 RX_DIRECTION).
Qed.

Lemma on_return_set_rx_gain {A} (gain : double) (chan : nat) (k : double → M A) (c : ctx)
    (Q : A → ctx → Prop) :
  gain_setters_modelled → others_keep_gains →
  (∀ a c',
     (∃ s, gain_of RX_DIRECTION (base (this c')) chan = Some s
           ∧ (s = clip (gain_range RX_DIRECTION) gain
              ∨ PrimFloat.eqb s (clip (gain_range RX_DIRECTION) gain) = true)) →
     (∀ chan', chan' ≠ chan →
        gain_of RX_DIRECTION (base (this c')) chan'
        = gain_of RX_DIRECTION (base (this c)) chan') →
     (∀ chan', gain_of TX_DIRECTION (base (this c')) chan'
               = gain_of TX_DIRECTION (base (this c)) chan') →
     on_return (k a) c' Q) →
  on_return (bind (invoke (set_rx_gain gain chan)) k) c Q.
Proof.
  intros Hm Hk HQ. unfold on_return, bind, invoke.
  destruct (Hm gain chan (this c)) as [_ ->].
  destruct (rhodium_set_gain RX_DIRECTION gain chan (mk_ctx (this c) [])) as [[a|e] c1] eqn:E;
    [|done].
  destruct (rhodium_set_gain_stored _ _ _ _ _ _ Hk E) as (H1 & H2 & H3).
  apply HQ; [exact H1|exact H2|].
  intros chan'. by apply (H3 TX_DIRECTION).
Qed.

Lemma on_return_invoke_bind {A} (m : method) (k : denote (result_type m) → M A) (c : ctx)
    (Q : A → ctx → Prop) :
  others_keep_gains → is_gain_setter m = false →
  (∀ a c',
     (∀ dir chan, gain_of dir (base (this c')) chan = gain_of dir (base (this c)) chan) →
     on_return (k a) c' Q) →
  on_return (bind (invoke m) k) c Q.
Proof.
  intros Hk Hm HQ. apply on_return_bind, on_return_keeps; [by apply keeps_gains_invoke|].
  exact HQ.
Qed.

(** The stored gains a complete run of [_init_peripherals] leaves: those of
    channel 0 are the clamped default gain, those of the other channels are
    what they were. *)
Lemma _init_peripherals_gains (c : ctx) :
  gain_setters_modelled → others_keep_gains →
  on_return _init_peripherals c
    (λ _ c2, ∀ dir,
       (∃ s, gain_of dir (base (this c2)) 0 = Some s
             ∧ (s = clip (gain_range dir) RHODIUM_DEFAULT_GAIN
                ∨ PrimFloat.eqb s (clip (gain_range dir) RHODIUM_DEFAULT_GAIN) = true))
       ∧ (∀ chan, chan ≠ 0%nat →
            gain_of dir (base (this c2)) chan = gain_of dir (base (this c)) chan)).
Proof.
  intros Hm Hk. unfold _init_peripherals.
  apply on_return_invoke_bind; [done|done|]. intros _ c1 H1.
  apply on_return_invoke_bind; [done|done|]. intros _ c2 H2.
  apply on_return_set_tx_gain; [done|done|]. intros _ c3 Ht3 Ht3' Hr3.
  apply on_return_invoke_bind; [done|done|]. intros _ c4 H4.
  apply on_return_set_rx_gain; [done|done|]. intros _ c5 Hr5 Hr5' Ht5.
  apply on_return_keeps.
  { repeat match goal with
           | |- keeps_gains (bind (gets _) _) => apply keeps_gains_gets_bind; intros ?
           | |- keeps_gains (bind (invoke ?m) ?k) =>
               apply (keeps_gains_invoke_bind m k); [done|done|intros ?]
           end.
    match goal with
    | |- keeps_gains (invoke ?m) => by apply (keeps_gains_invoke m)
    end. }
  intros _ c6 H6 dir. split.
  - destruct dir.
    + rewrite H6. exact Hr5.
    + rewrite H6, Ht5, H4. exact Ht3.
  - intros chan Hne. destruct dir.
    + by rewrite H6, (Hr5' chan Hne), H4, Hr3, H2, H1.
    + by rewrite H6, Ht5, H4, (Ht3' chan Hne), H2, H1.
Qed.

(** A set of a gain that clamps to the stored gain is a no-op. *)
Lemma rhodium_set_gain_unchanged (dir : direction_t) (gain : double) (chan : nat) (c : ctx)
    (s : double) :
  gain_of dir (base (this c)) chan = Some s →
  PrimFloat.eqb s (clip (gain_range dir) gain) = true →
  rhodium_set_gain dir gain chan c = (Ok (clip (gain_range dir) gain), c).
Proof.
  intros Hg He. unfold rhodium_set_gain. cbv zeta. unfold bind at 1.
  destruct dir; simpl in Hg; unfold stored_gain, call_base;
    [unfold radio_ctrl_impl.get_rx_gain | unfold radio_ctrl_impl.get_tx_gain];
    rewrite Hg; rewrite He; simpl; by destruct c as [[] ?].
Qed.

(** ** The claims *)

(** C1, as amended.  A write to a read-only node fails with the
    [runtime_error] of its rejecting subscriber (the spec's
    ReadOnlyWriteError), and no collaborator is called; but the store
    happens before the subscribers are notified, so after the failed write
    the stored value of the node is the value written.  This holds for every
    node [_init_frontend_subtree] creates with a rejecting subscriber
    ([read_only_nodes]: antenna options, frequency, bandwidth and gain
    ranges, lock sensors, oscillator gain and power ranges), whatever the
    collaborators do; and, when the discovery of the sensors returns, for
    every remote sensor node [_init_mpm_sensors] creates. *)
Theorem read_only_write_throws_after_store :
  (∀ (subtree : fs_path) (chan : nat) (t : property_tree) (c : ctx)
     (path : fs_path) (T : ty) (v : denote T),
     (path, T) ∈ read_only_nodes chan →
     ∃ (what : string) (w' : world),
       tree_set T (subtree ++ path) v (mk_world (_init_frontend_subtree subtree chan t) c)
       = (Throw (runtime_error what), w')
       ∧ context w' = c
       ∧ stored_at T (tree w') (subtree ++ path) = Some v)
  ∧ (∀ (w : world) (dir : direction_t) (chan : nat) (sensor_list : list string)
       (o' : rhodium_radio_ctrl_impl HW) (sensor_name : string) (reading : sensor_value_t)
       (c : ctx),
       handler (request_with_token_strings (_rpc_prefix (this (context w)) +:+ "get_sensors")
                  [arg_string (trx_of dir)]) (this (context w)) = (Ok sensor_list, o') →
       sensor_name ∈ sensor_list →
       ∃ w1 w' : world,
         _init_mpm_sensors dir chan w = (Ok tt, w1)
         ∧ tree_set TSensor (mpm_sensor_path (this (context w)) dir chan sensor_name)
             reading (mk_world (tree w1) c)
           = (Throw (runtime_error "Attempting to write to sensor!"), w')
         ∧ context w' = c
         ∧ stored_at TSensor (tree w')
             (mpm_sensor_path (this (context w)) dir chan sensor_name) = Some reading).
Proof.
  split.
  - intros subtree chan t c path T v Hin.
    destruct (read_only_nodes_lookup subtree chan t path T Hin) as (p & what & Hl & Hc & Hs).
    exists what. eexists. split; [|split].
    + apply (tree_set_read_only _ _ _ _ _ _ _ Hl Hc Hs).
    + reflexivity.
    + simpl. erewrite stored_at_lookup by apply lookup_insert_eq. reflexivity.
  - intros w dir chan sensor_list o' sensor_name reading c Hrpc Hname.
    eexists. eexists. split; [apply (_init_mpm_sensors_run _ _ _ _ _ Hrpc)|].
    simpl. split; [|split].
    + eapply tree_set_read_only;
        [apply (foldl_create_lookup TSensor _ (mpm_sensor_node dir chan) _ _ _ Hname)
        |reflexivity|reflexivity].
    + reflexivity.
    + simpl. erewrite stored_at_lookup by apply lookup_insert_eq. reflexivity.
Qed.

(** C2.  The body of the TX loop of [_init_defaults] stores the default
    bandwidth of its channel through the RX bandwidth setter and leaves the
    TX bandwidth map as it was; so does the whole default initialisation,
    for every TX channel: the state it hands to its last block has the RX
    bandwidth of every channel below [num_tx_chans] set to
    [RHODIUM_DEFAULT_BANDWIDTH] and the TX bandwidth map untouched. *)
Theorem tx_default_bandwidth_written_by_rx_setter (w : world) :
  (∀ (chan : nat) (w0 : world),
     ∃ w0', _init_defaults_tx_chan chan w0 = (Ok tt, w0')
       ∧ radio_ctrl_impl._rx_bandwidth (base_of w0') !! chan = Some RHODIUM_DEFAULT_BANDWIDTH
       ∧ radio_ctrl_impl._tx_bandwidth (base_of w0') = radio_ctrl_impl._tx_bandwidth (base_of w0))
  ∧ ∃ w1 : world,
      _init_defaults w = _init_defaults_spp w1
      ∧ tree w1 = tree w
      ∧ radio_ctrl_impl._tx_bandwidth (base_of w1) = radio_ctrl_impl._tx_bandwidth (base_of w)
      ∧ ∀ chan, (chan < length (get_input_ports (this (context w))))%nat →
          radio_ctrl_impl._rx_bandwidth (base_of w1) !! chan = Some RHODIUM_DEFAULT_BANDWIDTH.
Proof.
  split.
  - intros chan w0. eexists. split; [apply _init_defaults_tx_chan_run|].
    split; [apply lookup_insert_eq | reflexivity].
  - exists (with_base (defaults_base w) w).
    split; [apply _init_defaults_run|]. split; [reflexivity|].
    rewrite base_of_with_base. unfold defaults_base.
    destruct (tx_loop_invariant (length (get_input_ports (this (context w)))) 0
                (chan_loop rx_chan_defaults (length (get_output_ports (this (context w)))) 0
                   (base_of w))) as (H1 & _ & H3 & _).
    destruct (rx_loop_invariant (length (get_output_ports (this (context w)))) 0 (base_of w))
      as (H1' & _).
    split; [by rewrite H1, H1'|].
    intros chan Hc. apply H3. lia.
Qed.

(** C3, on the code.  After [_init_frontend_subtree] the frequency value
    nodes of RX LO1, RX LO2 and TX LO2 exist at [los/<lo-id>/freq/value],
    but the one of TX LO1 does not: the source creates it at
    ["freq/value "], with a space after [value], and the node exists only
    under that name. *)
Theorem tx_lo1_freq_value_created_with_trailing_space (subtree : fs_path) (chan : nat)
    (t : property_tree) :
  RHODIUM_LO1 ≠ RHODIUM_LO2 →
  t !! (subtree ++ (frontend_path TX_DIRECTION chan
                    </> "los" </> RHODIUM_LO1 </> "freq" </> "value")) = None →
  let t' := _init_frontend_subtree subtree chan t in
  tree_exists t' (subtree ++ (frontend_path RX_DIRECTION chan
                              </> "los" </> RHODIUM_LO1 </> "freq" </> "value")) = true
  ∧ tree_exists t' (subtree ++ (frontend_path RX_DIRECTION chan
                                </> "los" </> RHODIUM_LO2 </> "freq" </> "value")) = true
  ∧ tree_exists t' (subtree ++ (frontend_path TX_DIRECTION chan
                                </> "los" </> RHODIUM_LO2 </> "freq" </> "value")) = true
  ∧ tree_exists t' (subtree ++ (frontend_path TX_DIRECTION chan
                                </> "los" </> RHODIUM_LO1 </> "freq" </> "value")) = false
  ∧ tree_exists t' (subtree ++ (frontend_path TX_DIRECTION chan
                                </> "los" </> RHODIUM_LO1 </> "freq" </> "value ")) = true.
Proof.
  intros Hlo Ht t'. subst t'. unfold tree_exists.
  repeat split.
  - apply bool_decide_eq_true_2. eexists. find_created.
  - apply bool_decide_eq_true_2. eexists. find_created.
  - apply bool_decide_eq_true_2. eexists. find_created.
  - apply bool_decide_eq_false_2. intros [x Hx].
    assert (Hnone : _init_frontend_subtree subtree chan t
                      !! (subtree ++ (frontend_path TX_DIRECTION chan
                                      </> "los" </> RHODIUM_LO1 </> "freq" </> "value"))
                    = None) by (skip_created; exact Ht).
    congruence.
  - apply bool_decide_eq_true_2. eexists. find_created.
Qed.

(** C4, as amended.  When the header fits in the receive MTU and the
    quotient fits in an [int] (at most 2^31 - 1), the value [_init_defaults]
    leaves stored in the spp node is (recvMTU - max_if_hdr_words64 * 8) /
    (2 * 2) of the value stored at mtu/recv, whatever was stored in the spp
    node before (the node is written through [set]; here it has no coercer).
    Outside that range the arithmetic is that of [size_t], modulo 2^64, and
    the result is narrowed to [int]. *)
Theorem default_spp_overrides_loaded_default (w : world) (mtu : Z)
    (p_mtu : property (denote TSizeT)) (p_spp : property (denote TInt)) :
  tree w !! ["mtu"; "recv"] = Some (existT TSizeT p_mtu) →
  publisher p_mtu = None →
  stored p_mtu = Some mtu →
  tree w !! (get_arg_path "spp" </> "value") = Some (existT TInt p_spp) →
  coercer p_spp = None →
  (0 ≤ max_if_hdr_words64)%Z →
  (max_if_hdr_words64 * 8 ≤ mtu < 2 ^ 64)%Z →
  ((mtu - max_if_hdr_words64 * 8) / (2 * 2) < 2 ^ 31)%Z →
  stored_at TInt (tree (snd (_init_defaults w))) (get_arg_path "spp" </> "value")
  = Some ((mtu - max_if_hdr_words64 * 8) / (2 * 2))%Z.
Proof.
  intros Hm Hmp Hmv Hs Hsc Hw Hmtu Hq.
  rewrite _init_defaults_run. unfold _init_defaults_spp, bind.
  unfold with_base at 1.
  rewrite (tree_get_stored TSizeT _ mtu _ _ p_mtu Hm Hmp Hmv).
  rewrite (tree_set_stored TInt _ _ _ _ p_spp Hs Hsc).
  by rewrite default_spp_in_range.
Qed.

(** C5.  For each direction, a write of a profile name outside
    [RHODIUM_GP_OPTIONS] to the gains/all/profile/value node succeeds: the
    coercer returns "default", [_gain_profile] of the direction holds
    "default", the node stores "default", and the next read of the node,
    which runs the publisher, returns "default".  No collaborator is
    called. *)
Theorem gain_profile_unrecognized_is_default (dir : direction_t) (subtree : fs_path)
    (chan : nat) (t : property_tree) (c : ctx) (profile : string) :
  profile ∉ RHODIUM_GP_OPTIONS →
  let path := subtree ++ (frontend_path dir chan
                          </> "gains" </> "all" </> "profile" </> "value") in
  let w := mk_world (_init_frontend_subtree subtree chan t) c in
  ∃ w' : world,
    gain_profile_coercer dir profile c = (Ok "default", context w')
    ∧ tree_set TString path profile w = (Ok tt, w')
    ∧ _gain_profile (this (context w')) !! dir = Some "default"
    ∧ stored_at TString (tree w') path = Some "default"
    ∧ tree_get TString path w' = (Ok "default", w')
    ∧ trace (context w') = trace c.
Proof.
  intros Hnot path w.
  assert (Hn : normalized_profile profile = "default").
  { unfold normalized_profile, has. by rewrite bool_decide_eq_false_2. }
  pose proof (lookup_profile_value dir subtree chan t) as Hl.
  eexists (mk_world _ _). split; [|split; [|split; [|split; [|split]]]].
  - rewrite gain_profile_coercer_run, Hn. simpl. reflexivity.
  - subst w. rewrite (profile_set_run dir _ _ _ _ Hl), Hn. reflexivity.
  - simpl. apply lookup_insert_eq.
  - simpl. erewrite stored_at_lookup by apply lookup_insert_eq. reflexivity.
  - eapply profile_get_run; [apply lookup_insert_eq | reflexivity].
  - reflexivity.
Qed.

(** C6, as amended.  Default initialisation leaves the stored gain of every
    channel of either direction at [RHODIUM_DEFAULT_INVALID_GAIN], which is
    -1.  From a state in which the stored gain of a channel is the sentinel,
    and when the bounds of the gain range of the direction are valid gains
    (above -1), no clamped gain equals the sentinel, so a gain set of the
    channel, for any requested gain, is not short-circuited: it writes the
    clamped gain to the hardware and stores it.  For channel 0 that first
    set is the initial gain write of [_init_peripherals]: when the gain
    setters the bring-up calls are the modelled setter and no other
    collaborator writes the stored gains, a complete bring-up leaves the
    stored gains of the channels above 0 as they were (the sentinel, after
    default initialisation), but the stored gain of channel 0 at the clamped
    [RHODIUM_DEFAULT_GAIN], which is not the sentinel, and a set of that
    gain after bring-up is short-circuited: it returns with no call made and
    nothing stored. *)
Theorem first_gain_write_reaches_hardware :
  (∀ (w : world) (dir : direction_t) (chan : nat),
     (chan < length (ports_of dir (this (context w))))%nat →
     ∃ w1 : world,
       _init_defaults w = _init_defaults_spp w1
       ∧ gain_of dir (base_of w1) chan = Some RHODIUM_DEFAULT_INVALID_GAIN
       ∧ RHODIUM_DEFAULT_INVALID_GAIN = (-1)%float)
  ∧ (∀ (dir : direction_t) (chan : nat) (gain : double) (c : ctx),
       PrimFloat.ltb RHODIUM_DEFAULT_INVALID_GAIN (start (gain_range dir)) = true →
       PrimFloat.ltb RHODIUM_DEFAULT_INVALID_GAIN (stop (gain_range dir)) = true →
       gain_of dir (base (this c)) chan = Some RHODIUM_DEFAULT_INVALID_GAIN →
       clip (gain_range dir) gain ≠ RHODIUM_DEFAULT_INVALID_GAIN
       ∧ trace (snd (rhodium_set_gain dir gain chan c))
         = trace c ++ [_cpld_set_gain_index (clip (gain_range dir) gain) dir]
       ∧ (∀ (index : double) (c2 : ctx),
            rhodium_set_gain dir gain chan c = (Ok index, c2) →
            index = clip (gain_range dir) gain
            ∧ gain_of dir (base (this c2)) chan = Some index))
  ∧ (gain_setters_modelled → others_keep_gains →
     ∀ (dir : direction_t) (c c2 : ctx),
       _init_peripherals c = (Ok tt, c2) →
       (∀ chan, chan ≠ 0%nat →
          gain_of dir (base (this c2)) chan = gain_of dir (base (this c)) chan)
       ∧ (PrimFloat.ltb RHODIUM_DEFAULT_INVALID_GAIN (start (gain_range dir)) = true →
          PrimFloat.ltb RHODIUM_DEFAULT_INVALID_GAIN (stop (gain_range dir)) = true →
          ∃ s : double,
            gain_of dir (base (this c2)) 0 = Some s
            ∧ s ≠ RHODIUM_DEFAULT_INVALID_GAIN
            ∧ rhodium_set_gain dir RHODIUM_DEFAULT_GAIN 0 c2
              = (Ok (clip (gain_range dir) RHODIUM_DEFAULT_GAIN), c2))).
Proof.
  split; [|split].
  - intros w dir chan Hc. exists (with_base (defaults_base w) w).
    split; [apply _init_defaults_run|]. split; [exact (defaults_gain w dir chan Hc)|].
    reflexivity.
  - intros dir chan gain c Hstart Hstop Hg.
    pose proof (clip_never_invalid (gain_range dir) gain Hstart Hstop) as Hne.
    split.
    { intros E. rewrite E in Hne. vm_compute in Hne. discriminate. }
    rewrite (rhodium_set_gain_from_invalid dir gain chan c Hg Hne).
    unfold bind, invoke.
    destruct (handler (_cpld_set_gain_index (clip (gain_range dir) gain) dir) _)
      as [[[]|e] o']; simpl.
    + split; [by destruct dir|].
      intros index c2. destruct dir; simpl; intros [= <- <-]; simpl;
        (split; [reflexivity | apply lookup_insert_eq]).
    + split; [reflexivity|]. intros index c2 [=].
  - intros Hm Hk dir c c2 Hrun.
    pose proof (_init_peripherals_gains c Hm Hk) as Hgains.
    unfold on_return in Hgains. rewrite Hrun in Hgains.
    destruct (Hgains dir) as [(s & Hs & Hs') Hframe].
    split; [exact Hframe|]. intros Hstart Hstop.
    assert (Hrefl : PrimFloat.eqb (clip (gain_range dir) RHODIUM_DEFAULT_GAIN)
                      (clip (gain_range dir) RHODIUM_DEFAULT_GAIN) = true).
    { unfold clip.
      destruct (PrimFloat.ltb RHODIUM_DEFAULT_GAIN (start (gain_range dir)));
        [by apply (eqb_refl_above _ _ Hstart)|].
      destruct (PrimFloat.ltb (stop (gain_range dir)) RHODIUM_DEFAULT_GAIN);
        [by apply (eqb_refl_above _ _ Hstop)|reflexivity]. }
    assert (Heq : PrimFloat.eqb s (clip (gain_range dir) RHODIUM_DEFAULT_GAIN) = true).
    { by destruct Hs' as [->|Hs']. }
    exists s. split; [exact Hs|]. split.
    + intros ->.
      pose proof (clip_never_invalid (gain_range dir) RHODIUM_DEFAULT_GAIN Hstart Hstop).
      congruence.
    + by apply (rhodium_set_gain_unchanged dir RHODIUM_DEFAULT_GAIN 0 c2 s).
Qed.

(** C7.  A read of a node with a publisher is the run of its publisher: it
    returns what the publisher returns and leaves the tree as it was, and
    two reads in a row are two runs of the publisher; this holds for every
    node and every publisher, whatever the collaborators do.  When the
    discovery of the sensors returns, every remote sensor node
    [_init_mpm_sensors] creates holds no value, and a read of it, from any
    state, sends one new get_sensor request and returns the answer (or the
    failure) of that request. *)
Theorem published_reads_are_fresh :
  (∀ (T : ty) (path : fs_path) (t : property_tree) (c : ctx)
     (p : property (denote T)) (pub : M (denote T)),
     t !! path = Some (existT T p) →
     publisher p = Some pub →
     tree_get T path (mk_world t c) = lift pub (mk_world t c)
     ∧ tree (snd (tree_get T path (mk_world t c))) = t
     ∧ (x <- tree_get T path ;; y <- tree_get T path ;; ret (x, y)) (mk_world t c)
       = lift (x <- pub ;; y <- pub ;; ret (x, y)) (mk_world t c))
  ∧ (∀ (w : world) (dir : direction_t) (chan : nat) (sensor_list : list string)
       (o' : rhodium_radio_ctrl_impl HW) (sensor_name : string) (c : ctx),
       handler (request_with_token_strings (_rpc_prefix (this (context w)) +:+ "get_sensors")
                  [arg_string (trx_of dir)]) (this (context w)) = (Ok sensor_list, o') →
       sensor_name ∈ sensor_list →
       ∃ w1 : world,
         _init_mpm_sensors dir chan w = (Ok tt, w1)
         ∧ stored_at TSensor (tree w1)
             (mpm_sensor_path (this (context w)) dir chan sensor_name) = None
         ∧ let request :=
             request_with_token_sensor_map (_rpc_prefix (this c) +:+ "get_sensor")
               [arg_string (trx_of dir); arg_string sensor_name; arg_size_t chan] in
           tree_get TSensor (mpm_sensor_path (this (context w)) dir chan sensor_name)
             (mk_world (tree w1) c)
           = (outcome_map sensor_of_map (fst (handler request (this c))),
              mk_world (tree w1)
                (mk_ctx (snd (handler request (this c))) (trace c ++ [request])))).
Proof.
  split.
  - intros T path t c p pub Hl Hp. by apply (published_reads T path t c p pub).
  - intros w dir chan sensor_list o' sensor_name c Hrpc Hname.
    eexists. split; [apply (_init_mpm_sensors_run _ _ _ _ _ Hrpc)|].
    pose proof (foldl_create_lookup TSensor
                  (["dboards"] </> _radio_slot (this (context w))
                   </> (if decide (dir = RX_DIRECTION) then "rx_frontends" else "tx_frontends")
                   </> to_string chan </> "sensors")
                  (mpm_sensor_node dir chan) sensor_list (tree w) sensor_name Hname) as Hs.
    simpl. split.
    + unfold mpm_sensor_path. by rewrite (stored_at_lookup _ _ _ _ Hs).
    + unfold mpm_sensor_path.
      rewrite (tree_get_publisher TSensor _ _ c _
                 (mpm_sensor_publisher (trx_of dir) sensor_name chan) Hs eq_refl).
      unfold lift. simpl. by rewrite mpm_sensor_publisher_run.
Qed.

(** C8, as amended.  Every run of [_init_peripherals], complete or cut short
    by an exception, calls its collaborators in stages that never go back:
    bus core, CPLD on its chip select, initial gain writes, TX oscillator,
    RX oscillator, GPIO, RX frontend core, TX frontend core.  The initial
    gain writes therefore come before the instantiation of either
    oscillator synthesizer, and a complete run goes through the stages of
    [peripheral_stages] call by call. *)
Theorem peripherals_initialised_in_stage_order (c : ctx) :
  ∃ l : list method,
    trace (snd (_init_peripherals c)) = trace c ++ l
    ∧ stages_ascend l = true
    ∧ (∀ i j a b, l !! i = Some a → l !! j = Some b →
         is_gain_write a = true → is_oscillator_make b = true → (i < j)%nat)
    ∧ (fst (_init_peripherals c) = Ok tt → stage_of <$> l = peripheral_stages).
Proof.
  destruct (_init_peripherals_emits c) as (l & H1 & [rest H2] & H3).
  assert (Hasc : stages_ascend l = true).
  { unfold stages_ascend. apply (ascending_prefix _ _ rest). by rewrite H2. }
  exists l. split; [exact H1|]. split; [exact Hasc|]. split; [|apply H3].
  intros i j a b Hi Hj Ha Hb.
  apply (ascending_order (stage_of <$> l) 0 i j (stage_of a) (stage_of b) Hasc).
  - by rewrite list_lookup_fmap, Hi.
  - by rewrite list_lookup_fmap, Hj.
  - rewrite (gain_write_stage a Ha). pose proof (oscillator_make_stage b Hb). lia.
Qed.

(** C9.  A read of the TX LO1 freq/range node is a call of
    [get_rx_lo_freq_range] for LO1, recorded as such in the trace, while a
    read of the TX LO2 freq/range node is a call of
    [get_tx_lo_freq_range] for LO2. *)
Theorem tx_lo1_freq_range_publishes_rx_range (subtree : fs_path) (chan : nat)
    (t : property_tree) (c : ctx) :
  RHODIUM_LO1 ≠ RHODIUM_LO2 →
  let w := mk_world (_init_frontend_subtree subtree chan t) c in
  tree_get TRange (subtree ++ (frontend_path TX_DIRECTION chan
                               </> "los" </> RHODIUM_LO1 </> "freq" </> "range")) w
  = lift (invoke (get_rx_lo_freq_range RHODIUM_LO1 chan)) w
  ∧ tree_get TRange (subtree ++ (frontend_path TX_DIRECTION chan
                                 </> "los" </> RHODIUM_LO2 </> "freq" </> "range")) w
    = lift (invoke (get_tx_lo_freq_range RHODIUM_LO2 chan)) w
  ∧ trace (context (snd (tree_get TRange
             (subtree ++ (frontend_path TX_DIRECTION chan
                          </> "los" </> RHODIUM_LO1 </> "freq" </> "range")) w)))
    = trace c ++ [get_rx_lo_freq_range RHODIUM_LO1 chan].
Proof.
  intros Hlo w.
  assert (H1 : tree_get TRange (subtree ++ (frontend_path TX_DIRECTION chan
                               </> "los" </> RHODIUM_LO1 </> "freq" </> "range")) w
               = lift (invoke (get_rx_lo_freq_range RHODIUM_LO1 chan)) w).
  { subst w. erewrite tree_get_lookup by find_created. reflexivity. }
  split; [exact H1|split].
  - subst w. erewrite tree_get_lookup by find_created. reflexivity.
  - rewrite H1. subst w. unfold lift, invoke. simpl.
    by destruct (handler (get_rx_lo_freq_range RHODIUM_LO1 chan) (this c)).
Qed.


End Proofs.

(** ** Further properties of the code *)

Ltac path_discriminate :=
  let H := fresh "H" in
  intros H; apply app_inv_head in H;
  unfold frontend_path, fs_path_div in H; simpl in H;
  first [discriminate H | congruence].

Section Further.
Context `{K : rhodium_constants} `{C : collaborators}.

(** *** The frontend subtree *)

Lemma frontend_subtree_frame (subtree : fs_path) (chan : nat) (t : property_tree)
    (path : fs_path) :
  (∀ (dir : direction_t) (rest : fs_path), path ≠ subtree ++ frontend_path dir chan ++ rest) →
  _init_frontend_subtree subtree chan t !! path = t !! path.
Proof.
  intros Hout.
  unfold _init_frontend_subtree, subtree_create, create.
  repeat (apply lookup_insert_skip;
          [let E := fresh "E" in
           intros E;
           first [ solve [eapply (Hout TX_DIRECTION);
                          rewrite <- E; unfold frontend_path, fs_path_div; simpl; reflexivity]
                 | solve [eapply (Hout RX_DIRECTION);
                          rewrite <- E; unfold frontend_path, fs_path_div; simpl; reflexivity] ]
          |]).
  reflexivity.
Qed.

(** X1.  [_init_frontend_subtree] creates nodes only below the two frontend
    directories of its channel, [tx_frontends/<chan>] and
    [rx_frontends/<chan>] of the subtree: the node at any other path is what
    it was before, and a path that had no node still has none. *)
Theorem frontend_subtree_creates_only_below_its_channel
    (subtree : fs_path) (chan : nat) (t : property_tree) (path : fs_path) :
  (∀ (dir : direction_t) (rest : fs_path), path ≠ subtree ++ frontend_path dir chan ++ rest) →
  _init_frontend_subtree subtree chan t !! path = t !! path
  ∧ tree_exists (_init_frontend_subtree subtree chan t) path = tree_exists t path.
Proof.
  intros Hout. unfold tree_exists. by rewrite frontend_subtree_frame.
Qed.

(** X2.  With two distinct oscillator names and two distinct oscillator gain
    names, the 56 creates of [_init_frontend_subtree] are at 56 different
    paths: no create of a run replaces the node of an earlier one. *)
Theorem frontend_subtree_creates_56_nodes (subtree : fs_path) (chan : nat) :
  RHODIUM_LO1 ≠ RHODIUM_LO2 →
  RHODIUM_LO_GAIN ≠ RHODIUM_LO_POWER →
  size (_init_frontend_subtree subtree chan ∅) = 56%nat.
Proof.
  intros Hlo Hgain.
  unfold _init_frontend_subtree, subtree_create, create.
  repeat (rewrite map_size_insert_None;
          [|repeat (apply lookup_insert_skip; [path_discriminate|]); apply lookup_empty]).
  by rewrite map_size_empty.
Qed.

(** *** Calls of the callbacks *)















(** *** The gain profile *)

(** X4.  The coercer of a [gains/all/profile/value] node returns one of
    [RHODIUM_GP_OPTIONS] whatever it is given, keeps a name that is one of
    them, and is idempotent; it records the name for its own direction and
    changes nothing else of the controller: not the entry of the other
    direction, not the state of the base class or of the collaborators, and
    it calls none of them. *)
Theorem gain_profile_coercer_normalizes (dir : direction_t) (profile : string) (c : ctx) :
  ∃ (r : string) (c' : ctx),
    gain_profile_coercer dir profile c = (Ok r, c')
    ∧ r ∈ RHODIUM_GP_OPTIONS
    ∧ (profile ∈ RHODIUM_GP_OPTIONS → r = profile)
    ∧ gain_profile_coercer dir r c' = (Ok r, c')
    ∧ _gain_profile (this c') !! dir = Some r
    ∧ (∀ dir', dir' ≠ dir →
         _gain_profile (this c') !! dir' = _gain_profile (this c) !! dir')
    ∧ base (this c') = base (this c)
    ∧ hw (this c') = hw (this c)
    ∧ trace c' = trace c.
Proof.
  exists (normalized_profile profile), (with_gain_profile dir (normalized_profile profile) c).
  assert (Hin : normalized_profile profile ∈ RHODIUM_GP_OPTIONS).
  { unfold normalized_profile, has. case_bool_decide; [done|]. apply list_elem_of_here. }
  assert (Hrun : ∀ p c0, gain_profile_coercer dir p c0
                         = (Ok (normalized_profile p),
                            with_gain_profile dir (normalized_profile p) c0)).
  { intros p c0. unfold gain_profile_coercer, normalized_profile.
    by destruct (has RHODIUM_GP_OPTIONS p). }
  assert (Hkeep : ∀ p, p ∈ RHODIUM_GP_OPTIONS → normalized_profile p = p).
  { intros p Hp. unfold normalized_profile, has. by rewrite bool_decide_eq_true_2. }
  split; [apply Hrun|]. split; [exact Hin|]. split; [apply Hkeep|].
  split.
  { rewrite Hrun, (Hkeep _ Hin). f_equal.
    unfold with_gain_profile. simpl. by rewrite insert_insert_eq. }
  split; [apply lookup_insert_eq|].
  split; [intros dir' Hne; by apply lookup_insert_ne|].
  done.
Qed.

(** *** Peripherals *)

Lemma throws_invoke (m : method) : throws_from_last_call (invoke m).
Proof.
  intros c e. unfold invoke.
  destruct (handler m (this c)) as [r o] eqn:E. simpl. intros ->.
  exists [], m, (this c). by rewrite E.
Qed.

Lemma throws_invoke_bind {A} (m : method) (k : denote (result_type m) → M A) :
  (∀ a, throws_from_last_call (k a)) → throws_from_last_call (bind (invoke m) k).
Proof.
  intros Hk c e. unfold bind, invoke.
  destruct (handler m (this c)) as [[a|e'] o] eqn:E.
  - intros He. destruct (Hk a _ e He) as (l & x & o' & H1 & H2).
    exists (m :: l), x, o'. split; [|exact H2].
    rewrite H1. simpl. by rewrite <- !app_assoc.
  - simpl. intros [= ->]. exists [], m, (this c). by rewrite E.
Qed.

Lemma throws_gets_bind {A B} (f : ctx → A) (k : A → M B) :
  (∀ a, throws_from_last_call (k a)) → throws_from_last_call (bind (gets f) k).
Proof. intros Hk c. apply (Hk (f c) c). Qed.

Lemma _init_peripherals_throws : throws_from_last_call _init_peripherals.
Proof.
  unfold _init_peripherals.
  repeat match goal with
         | |- throws_from_last_call (bind (gets _) _) => apply throws_gets_bind; intros ?
         | |- throws_from_last_call (bind (invoke _) _) => apply throws_invoke_bind; intros ?
         end.
  match goal with |- throws_from_last_call (invoke ?m) => exact (throws_invoke m) end.
Qed.

(** X5.  [_init_peripherals] has no exception of its own and catches none:
    a complete run makes 25 calls, and a run that throws stops at the call
    that threw, before the 25th call is over: the exception is the one of
    the last call made, and the controller object is as that call left
    it. *)
Theorem peripherals_stop_at_first_failure (c : ctx) :
  (∀ a, fst (_init_peripherals c) = Ok a →
     ∃ l : list method,
       trace (snd (_init_peripherals c)) = trace c ++ l ∧ length l = 25%nat)
  ∧ (∀ e, fst (_init_peripherals c) = Throw e →
       ∃ (l : list method) (x : method) (o : rhodium_radio_ctrl_impl HW),
         trace (snd (_init_peripherals c)) = trace c ++ l ++ [x]
         ∧ (length l < 25)%nat
         ∧ handler x o = (Throw e, this (snd (_init_peripherals c)))).
Proof.
  destruct (_init_peripherals_emits c) as (l0 & Htr & [rest Hpre] & Hall).
  split.
  - intros a Ha. exists l0. split; [exact Htr|].
    rewrite <- (length_fmap stage_of), (Hall a Ha). reflexivity.
  - intros e He. destruct (_init_peripherals_throws c e He) as (l & x & o & H1 & H2).
    exists l, x, o. split; [exact H1|]. split; [|exact H2].
    rewrite Htr in H1. apply app_inv_head in H1. subst l0.
    apply (f_equal length) in Hpre.
    rewrite length_app, length_fmap, !length_app in Hpre. simpl in Hpre. lia.
Qed.



(** *** Remote sensors *)

Lemma foldl_create_frame (T : ty) (dir_path : fs_path) (node : string → property (denote T))
    (l : list string) (t : property_tree) (path : fs_path) :
  (∀ name, name ∈ l → path ≠ dir_path </> name) →
  foldl (λ t x, create T (dir_path </> x) (node x) t) t l !! path = t !! path.
Proof.
  induction l as [|x l IH] using rev_ind; intros Hout; [done|].
  rewrite foldl_app. simpl. unfold create at 1.
  rewrite lookup_insert_ne.
  - apply IH. intros name Hin. apply Hout, elem_of_app. by left.
  - intros E. apply (Hout x); [|done]. apply elem_of_app. right. apply list_elem_of_here.
Qed.

(** X7.  When the request for the sensor names throws, [_init_mpm_sensors]
    throws the same exception: that request is the only call made, and no
    node is created. *)
Theorem mpm_sensors_discovery_failure (dir : direction_t) (chan : nat) (w : world)
    (e : exception) (o' : rhodium_radio_ctrl_impl HW) :
  handler (request_with_token_strings (_rpc_prefix (this (context w)) +:+ "get_sensors")
             [arg_string (trx_of dir)]) (this (context w)) = (Throw e, o') →
  _init_mpm_sensors dir chan w
  = (Throw e,
     mk_world (tree w)
       (mk_ctx o' (trace (context w)
                   ++ [request_with_token_strings
                         (_rpc_prefix (this (context w)) +:+ "get_sensors")
                         [arg_string (trx_of dir)]]))).
Proof.
  intros H. unfold _init_mpm_sensors, bind at 1, get_this, gets.
  unfold bind at 1, lift, invoke. fold (trx_of dir). by rewrite H.
Qed.

(** X8.  When the request for the sensor names returns [sensor_list],
    [_init_mpm_sensors] returns after that one call (no sensor is read while
    the nodes are made), with a sensor node at [sensors/<name>] of the
    frontend for every name of the list and every other node of the tree as
    it was; with an empty list the tree is unchanged. *)
Theorem mpm_sensors_creates_only_sensor_nodes (dir : direction_t) (chan : nat) (w : world)
    (sensor_list : list string) (o' : rhodium_radio_ctrl_impl HW) :
  handler (request_with_token_strings (_rpc_prefix (this (context w)) +:+ "get_sensors")
             [arg_string (trx_of dir)]) (this (context w)) = (Ok sensor_list, o') →
  ∃ t' : property_tree,
    _init_mpm_sensors dir chan w
    = (Ok tt,
       mk_world t'
         (mk_ctx o' (trace (context w)
                     ++ [request_with_token_strings
                           (_rpc_prefix (this (context w)) +:+ "get_sensors")
                           [arg_string (trx_of dir)]])))
    ∧ (∀ name, name ∈ sensor_list →
         t' !! mpm_sensor_path (this (context w)) dir chan name
         = Some (existT TSensor (mpm_sensor_node dir chan name)))
    ∧ (∀ path,
         (∀ name, name ∈ sensor_list →
            path ≠ mpm_sensor_path (this (context w)) dir chan name) →
         t' !! path = tree w !! path)
    ∧ (sensor_list = [] → t' = tree w).
Proof.
  intros H. eexists. split; [exact (_init_mpm_sensors_run dir chan w sensor_list o' H)|].
  split; [|split].
  - intros name Hin. unfold mpm_sensor_path.
    exact (foldl_create_lookup TSensor _ (mpm_sensor_node dir chan) sensor_list (tree w)
             name Hin).
  - intros path Hout.
    exact (foldl_create_frame TSensor _ (mpm_sensor_node dir chan) sensor_list (tree w)
             path Hout).
  - by intros ->.
Qed.

(** *** The property tree of the block *)

(** X9.  [_init_prop_tree] returns without calling a collaborator.  A
    [tick_rate] node that exists before the call is left as it is, with its
    value and callbacks; only when there is none is the node created, with
    [get_rate] as its publisher.  The codec name nodes hold the names of the
    two converters. *)
Theorem prop_tree_keeps_existing_tick_rate (w : world) :
  ∃ t' : property_tree,
    _init_prop_tree w = (Ok tt, mk_world t' (context w))
    ∧ (∀ node, tree w !! ["tick_rate"] = Some node → t' !! ["tick_rate"] = Some node)
    ∧ (tree w !! ["tick_rate"] = None →
       t' !! ["tick_rate"]
       = Some (existT TDouble (new_property |.> set_publisher (invoke get_rate))))
    ∧ stored_at TString t' (["rx_codecs"] </> _radio_slot (this (context w)) </> "name")
      = Some "ad9695-625"
    ∧ stored_at TString t' (["tx_codecs"] </> _radio_slot (this (context w)) </> "name")
      = Some "dac37j82".
Proof.
  set (o := this (context w)).
  set (t5 := create TString (["tx_codecs"] </> _radio_slot o </> "name")
               (new_property |.> store "dac37j82")
               (create TString (["rx_codecs"] </> _radio_slot o </> "name")
                  (new_property |.> store "ad9695-625")
                  (create TInt (["tx_codecs"] </> _radio_slot o </> "gains") new_property
                     (create TInt (["rx_codecs"] </> _radio_slot o </> "gains") new_property
                        (create TEepromMap (_root_path o </> "eeprom")
                           (new_property |.> store [])
                           (_init_frontend_subtree (["dboards"] </> _radio_slot o) 0
                              (tree w))))))).
  assert (Hrun : _init_prop_tree w
                 = (Ok tt,
                    mk_world (if tree_exists t5 ["tick_rate"] then t5
                              else create TDouble ["tick_rate"]
                                     (new_property |.> set_publisher (invoke get_rate)) t5)
                      (context w))).
  { unfold _init_prop_tree, bind, get_this, gets, update_tree, modify.
    cbn beta iota zeta delta [tree context fst snd negb]. fold o. fold t5.
    by destruct (tree_exists t5 ["tick_rate"]). }
  assert (Htick : t5 !! ["tick_rate"] = tree w !! ["tick_rate"]).
  { unfold t5, create.
    rewrite !lookup_insert_ne.
    - apply frontend_subtree_frame. intros dir rest E. discriminate E.
    - unfold fs_path_div. intros E. apply (f_equal last) in E.
      rewrite last_snoc in E. discriminate E.
    - discriminate.
    - discriminate.
    - discriminate.
    - discriminate. }
  assert (Hrx : t5 !! (["rx_codecs"] </> _radio_slot o </> "name")
                = Some (existT TString (new_property |.> store "ad9695-625"))).
  { unfold t5, create. rewrite lookup_insert_ne by discriminate. apply lookup_insert_eq. }
  assert (Htx : t5 !! (["tx_codecs"] </> _radio_slot o </> "name")
                = Some (existT TString (new_property |.> store "dac37j82"))).
  { unfold t5, create. apply lookup_insert_eq. }
  eexists. split; [exact Hrun|]. unfold tree_exists. rewrite Htick.
  destruct (tree w !! ["tick_rate"]) as [node|] eqn:E.
  - rewrite bool_decide_eq_true_2 by (by eexists).
    split; [intros ? [= <-]; by rewrite Htick|]. split; [done|].
    split; [by rewrite (stored_at_lookup _ _ _ _ Hrx)|by rewrite (stored_at_lookup _ _ _ _ Htx)].
  - rewrite bool_decide_eq_false_2 by (by intros [? ?]).
    split; [done|]. split; [intros _; apply lookup_insert_eq|].
    split.
    + rewrite (stored_at_lookup TString _ _ (new_property |.> store "ad9695-625")); [done|].
      unfold create at 1. by rewrite lookup_insert_ne by discriminate.
    + rewrite (stored_at_lookup TString _ _ (new_property |.> store "dac37j82")); [done|].
      unfold create at 1. by rewrite lookup_insert_ne by discriminate.
Qed.

(** *** Default initialisation *)

Lemma chan_loop_insert {V} (get : radio_ctrl_impl.t → gmap nat V)
    (f : nat → radio_ctrl_impl.t → radio_ctrl_impl.t) (v : V) :
  (∀ chan b, get (f chan b) = <[chan := v]> (get b)) →
  ∀ (count first : nat) (b : radio_ctrl_impl.t) (chan : nat),
    get (chan_loop f count first b) !! chan
    = if decide (first ≤ chan < first + count)%nat then Some v else get b !! chan.
Proof.
  intros Hf. induction count as [|k IH]; intros first b chan; simpl.
  - by rewrite decide_False by lia.
  - rewrite IH, Hf.
    destruct (decide (chan = first)) as [->|Hne].
    + rewrite lookup_insert_eq. rewrite (decide_True (P := (first ≤ first < first + S k)%nat)) by lia.
      by destruct (decide (S first ≤ first < S first + k)%nat).
    + rewrite lookup_insert_ne by done.
      destruct (decide (S first ≤ chan < S first + k)%nat).
      * by rewrite decide_True by lia.
      * by rewrite decide_False by lia.
Qed.

Lemma chan_loop_keep {V} (get : radio_ctrl_impl.t → V)
    (f : nat → radio_ctrl_impl.t → radio_ctrl_impl.t) :
  (∀ chan b, get (f chan b) = get b) →
  ∀ (count first : nat) (b : radio_ctrl_impl.t), get (chan_loop f count first b) = get b.
Proof.
  intros Hf. induction count as [|k IH]; intros first b; simpl; [done|].
  by rewrite IH, Hf.
Qed.

(** X10.  The two loops of [_init_defaults] call no collaborator and leave
    the tree alone.  They store the default frequency and antenna of every
    RX channel below [num_rx_chans] and of every TX channel below
    [num_tx_chans], and nothing at or above the bound: the RX frequency,
    antenna and gain of a channel at or above [num_rx_chans], and the TX
    ones of a channel at or above [num_tx_chans], are what they were; so is
    the RX bandwidth of a channel at or above both. *)
Theorem defaults_written_below_the_channel_counts (w : world) :
  let num_rx_chans := length (get_output_ports (this (context w))) in
  let num_tx_chans := length (get_input_ports (this (context w))) in
  ∃ w1 : world,
    _init_defaults w = _init_defaults_spp w1
    ∧ tree w1 = tree w
    ∧ trace (context w1) = trace (context w)
    ∧ (∀ chan, (chan < num_rx_chans)%nat →
         radio_ctrl_impl._rx_freq (base_of w1) !! chan = Some RHODIUM_DEFAULT_FREQ
         ∧ radio_ctrl_impl._rx_antenna (base_of w1) !! chan = Some RHODIUM_DEFAULT_RX_ANTENNA)
    ∧ (∀ chan, (chan < num_tx_chans)%nat →
         radio_ctrl_impl._tx_freq (base_of w1) !! chan = Some RHODIUM_DEFAULT_FREQ
         ∧ radio_ctrl_impl._tx_antenna (base_of w1) !! chan = Some RHODIUM_DEFAULT_TX_ANTENNA)
    ∧ (∀ chan, (num_rx_chans ≤ chan)%nat →
         radio_ctrl_impl._rx_freq (base_of w1) !! chan
         = radio_ctrl_impl._rx_freq (base_of w) !! chan
         ∧ radio_ctrl_impl._rx_antenna (base_of w1) !! chan
           = radio_ctrl_impl._rx_antenna (base_of w) !! chan
         ∧ radio_ctrl_impl._rx_gain (base_of w1) !! chan
           = radio_ctrl_impl._rx_gain (base_of w) !! chan)
    ∧ (∀ chan, (num_tx_chans ≤ chan)%nat →
         radio_ctrl_impl._tx_freq (base_of w1) !! chan
         = radio_ctrl_impl._tx_freq (base_of w) !! chan
         ∧ radio_ctrl_impl._tx_antenna (base_of w1) !! chan
           = radio_ctrl_impl._tx_antenna (base_of w) !! chan
         ∧ radio_ctrl_impl._tx_gain (base_of w1) !! chan
           = radio_ctrl_impl._tx_gain (base_of w) !! chan)
    ∧ (∀ chan, (num_rx_chans ≤ chan)%nat → (num_tx_chans ≤ chan)%nat →
         radio_ctrl_impl._rx_bandwidth (base_of w1) !! chan
         = radio_ctrl_impl._rx_bandwidth (base_of w) !! chan).
Proof.
  intros num_rx_chans num_tx_chans.
  exists (with_base (defaults_base w) w).
  split; [apply _init_defaults_run|]. split; [reflexivity|]. split; [reflexivity|].
  rewrite base_of_with_base. unfold defaults_base. fold num_rx_chans num_tx_chans.
  set (b0 := base_of w).
  set (b1 := chan_loop rx_chan_defaults num_rx_chans 0 b0).
  split; [|split; [|split; [|split]]].
  - intros chan Hc. split.
    + rewrite (chan_loop_keep radio_ctrl_impl._rx_freq tx_chan_defaults) by done.
      unfold b1.
      rewrite (chan_loop_insert radio_ctrl_impl._rx_freq rx_chan_defaults
                 RHODIUM_DEFAULT_FREQ) by done.
      by rewrite decide_True by lia.
    + rewrite (chan_loop_keep radio_ctrl_impl._rx_antenna tx_chan_defaults) by done.
      unfold b1.
      rewrite (chan_loop_insert radio_ctrl_impl._rx_antenna rx_chan_defaults
                 RHODIUM_DEFAULT_RX_ANTENNA) by done.
      by rewrite decide_True by lia.
  - intros chan Hc. split.
    + rewrite (chan_loop_insert radio_ctrl_impl._tx_freq tx_chan_defaults
                 RHODIUM_DEFAULT_FREQ) by done.
      by rewrite decide_True by lia.
    + rewrite (chan_loop_insert radio_ctrl_impl._tx_antenna tx_chan_defaults
                 RHODIUM_DEFAULT_TX_ANTENNA) by done.
      by rewrite decide_True by lia.
  - intros chan Hc. split; [|split].
    + rewrite (chan_loop_keep radio_ctrl_impl._rx_freq tx_chan_defaults) by done.
      unfold b1.
      rewrite (chan_loop_insert radio_ctrl_impl._rx_freq rx_chan_defaults
                 RHODIUM_DEFAULT_FREQ) by done.
      by rewrite decide_False by lia.
    + rewrite (chan_loop_keep radio_ctrl_impl._rx_antenna tx_chan_defaults) by done.
      unfold b1.
      rewrite (chan_loop_insert radio_ctrl_impl._rx_antenna rx_chan_defaults
                 RHODIUM_DEFAULT_RX_ANTENNA) by done.
      by rewrite decide_False by lia.
    + rewrite (chan_loop_keep radio_ctrl_impl._rx_gain tx_chan_defaults) by done.
      unfold b1.
      rewrite (chan_loop_insert radio_ctrl_impl._rx_gain rx_chan_defaults
                 RHODIUM_DEFAULT_INVALID_GAIN) by done.
      by rewrite decide_False by lia.
  - intros chan Hc. split; [|split].
    + rewrite (chan_loop_insert radio_ctrl_impl._tx_freq tx_chan_defaults
                 RHODIUM_DEFAULT_FREQ) by done.
      rewrite decide_False by lia. unfold b1.
      by rewrite (chan_loop_keep radio_ctrl_impl._tx_freq rx_chan_defaults).
    + rewrite (chan_loop_insert radio_ctrl_impl._tx_antenna tx_chan_defaults
                 RHODIUM_DEFAULT_TX_ANTENNA) by done.
      rewrite decide_False by lia. unfold b1.
      by rewrite (chan_loop_keep radio_ctrl_impl._tx_antenna rx_chan_defaults).
    + rewrite (chan_loop_insert radio_ctrl_impl._tx_gain tx_chan_defaults
                 RHODIUM_DEFAULT_INVALID_GAIN) by done.
      rewrite decide_False by lia. unfold b1.
      by rewrite (chan_loop_keep radio_ctrl_impl._tx_gain rx_chan_defaults).
  - intros chan Hrx Htx.
    rewrite (chan_loop_insert radio_ctrl_impl._rx_bandwidth tx_chan_defaults
               RHODIUM_DEFAULT_BANDWIDTH) by done.
    rewrite decide_False by lia. unfold b1.
    rewrite (chan_loop_insert radio_ctrl_impl._rx_bandwidth rx_chan_defaults
               RHODIUM_DEFAULT_BANDWIDTH) by done.
    by rewrite decide_False by lia.
Qed.

(** X11.  When the tree has no node at mtu/recv, [_init_defaults] throws at
    the read of it, after its two loops: the defaults of the channels are
    stored (the gain sentinel of every channel among them), the tree is
    untouched and no collaborator was called. *)
Theorem defaults_stored_before_missing_mtu (w : world) :
  tree w !! ["mtu"; "recv"] = None →
  fst (_init_defaults w) = Throw (NoSuchPathError ["mtu"; "recv"])
  ∧ snd (_init_defaults w) = with_base (defaults_base w) w
  ∧ tree (snd (_init_defaults w)) = tree w
  ∧ trace (context (snd (_init_defaults w))) = trace (context w)
  ∧ (∀ dir chan, (chan < length (ports_of dir (this (context w))))%nat →
       gain_of dir (base_of (snd (_init_defaults w))) chan
       = Some RHODIUM_DEFAULT_INVALID_GAIN).
Proof.
  intros Hmtu.
  assert (Hrun : _init_defaults w
                 = (Throw (NoSuchPathError ["mtu"; "recv"]), with_base (defaults_base w) w)).
  { rewrite _init_defaults_run. unfold _init_defaults_spp, bind, tree_get, access.
    unfold with_base at 1 2. cbn [tree]. by rewrite Hmtu. }
  rewrite Hrun. cbn [fst snd]. split; [done|]. split; [done|]. split; [done|].
  split; [done|]. intros dir chan Hc. rewrite base_of_with_base. by apply defaults_gain.
Qed.

(** *** The default samples per packet *)

(** X12.  When the header fits in the receive MTU, [default_spp] is the
    largest number of samples of two 16-bit words whose packet, with the
    largest header, fits in the MTU; and it grows with the MTU. *)
Theorem default_spp_is_largest_fitting (mtu : Z) :
  (0 ≤ max_if_hdr_words64)%Z →
  (max_if_hdr_words64 * 8 ≤ mtu < 2 ^ 64)%Z →
  (max_if_hdr_words64 * 8 + 4 * default_spp mtu ≤ mtu
   < max_if_hdr_words64 * 8 + 4 * (default_spp mtu + 1))%Z
  ∧ (∀ mtu', (mtu ≤ mtu' < 2 ^ 64)%Z → (default_spp mtu ≤ default_spp mtu')%Z).
Proof.
  intros Hw Hmtu.
  assert (Hspp : ∀ m, (max_if_hdr_words64 * 8 ≤ m < 2 ^ 64)%Z →
                      default_spp m = ((m - max_if_hdr_words64 * 8) / 4)%Z).
  { intros m Hm. unfold default_spp, to_size_t, sizeof_uint64_t, sizeof_int16_t. cbv zeta.
    rewrite (Z.mod_small (max_if_hdr_words64 * 8)) by lia.
    rewrite (Z.mod_small (m - max_if_hdr_words64 * 8)) by lia.
    rewrite (Z.mod_small (2 * 2)) by lia.
    apply Z.mod_small. split; [apply Z.div_pos; lia|].
    apply Z.div_lt_upper_bound; lia. }
  split.
  - rewrite (Hspp mtu Hmtu).
    pose proof (Z.div_mod (mtu - max_if_hdr_words64 * 8) 4 ltac:(lia)).
    pose proof (Z.mod_pos_bound (mtu - max_if_hdr_words64 * 8) 4 ltac:(lia)). lia.
  - intros mtu' Hmtu'. rewrite (Hspp mtu Hmtu), (Hspp mtu') by lia.
    apply Z.div_le_mono; lia.
Qed.

(** X13.  When the receive MTU is smaller than the header, the unsigned
    subtraction of [default_spp] wraps: with the header at most 2^33 bytes
    above the MTU, the quotient is 2^62 less the rounded-up quarter of the
    difference, and the [int] written to the spp node is negative. *)
Theorem default_spp_negative_below_header (mtu : Z) :
  (0 ≤ mtu < max_if_hdr_words64 * 8)%Z →
  (max_if_hdr_words64 * 8 < 2 ^ 64)%Z →
  (max_if_hdr_words64 * 8 - mtu ≤ 2 ^ 33)%Z →
  default_spp mtu = (2 ^ 62 - (max_if_hdr_words64 * 8 - mtu + 3) / 4)%Z
  ∧ to_int (default_spp mtu) = (- ((max_if_hdr_words64 * 8 - mtu + 3) / 4))%Z
  ∧ (to_int (default_spp mtu) < 0)%Z.
Proof.
  intros Hmtu Hhdr Hd.
  assert (Hspp : default_spp mtu = (2 ^ 62 - (max_if_hdr_words64 * 8 - mtu + 3) / 4)%Z).
  { unfold default_spp, to_size_t, sizeof_uint64_t, sizeof_int16_t. cbv zeta.
    rewrite (Z.mod_small (max_if_hdr_words64 * 8)) by lia.
    rewrite (Z.mod_small (2 * 2)) by lia.
    replace ((mtu - max_if_hdr_words64 * 8) mod 2 ^ 64)%Z
      with (2 ^ 64 - (max_if_hdr_words64 * 8 - mtu))%Z.
    2: { apply (Z.mod_unique _ _ (-1)); lia. }
    rewrite Z.mod_small.
    - Z.to_euclidean_division_equations. lia.
    - split; [apply Z.div_pos; lia|]. apply Z.div_lt_upper_bound; lia. }
  split; [exact Hspp|].
  assert (Hk : (1 ≤ (max_if_hdr_words64 * 8 - mtu + 3) / 4 ≤ 2 ^ 31)%Z).
  { Z.to_euclidean_division_equations. lia. }
  assert (Hint : to_int (default_spp mtu) = (- ((max_if_hdr_words64 * 8 - mtu + 3) / 4))%Z).
  { rewrite Hspp. unfold to_int.
    set (k := ((max_if_hdr_words64 * 8 - mtu + 3) / 4)%Z) in *.
    replace ((2 ^ 62 - k + 2 ^ 31) mod 2 ^ 32)%Z with (2 ^ 31 - k)%Z; [lia|].
    apply (Z.mod_unique _ _ (2 ^ 30)); lia. }
  split; [exact Hint|]. rewrite Hint. lia.
Qed.
End Further.

(** ** The claims on the sample parameters *)

(** C1: the failed write to the TX antenna options of the sample controller
    replaces the stored options. *)
Lemma read_only_write_replaces_stored_value :
  let t := _init_frontend_subtree (K := sample_constants) (C := sample_collaborators)
             ["dboards"; "A"] 0 ∅ in
  let path := ["dboards"; "A"; "tx_frontends"; "0"; "antenna"; "options"] in
  let w' := snd (tree_set TStrings path ["RX2"] (mk_world t sample_ctx)) in
  fst (tree_set TStrings path ["RX2"] (mk_world t sample_ctx))
  = Throw (runtime_error "Attempting to update antenna options!")
  ∧ stored_at TStrings t path = Some ["TX/RX"]
  ∧ stored_at TStrings (tree w') path = Some ["RX2"]
  ∧ stored_at TStrings (tree w') path ≠ stored_at TStrings t path.
Proof. vm_compute. repeat split; discriminate. Qed.

(** C1 on the sample controller: the TX frequency range and the remote
    temperature sensor of RX channel 0; and the TX frequency range of a
    controller whose discovery of the sensors throws. *)
Lemma read_only_write_throws_after_store_witness :
  let t := _init_frontend_subtree (K := sample_constants) (C := sample_collaborators)
             ["dboards"; "A"] 0 ∅ in
  let t_offline := _init_frontend_subtree (K := sample_constants)
                     (C := offline_collaborators) ["dboards"; "A"] 0 ∅ in
  let path := ["dboards"; "A"; "tx_frontends"; "0"; "freq"; "range"] in
  let sensor := ["dboards"; "A"; "rx_frontends"; "0"; "sensors"; "temperature"] in
  let reading := sensor_of_map [("value", "21")] in
  (["tx_frontends"; "0"; "freq"; "range"], TRange)
    ∈ read_only_nodes (K := sample_constants) 0
  ∧ "temperature" ∈ ["temperature"]
  ∧ (∃ (what : string) (w' : world),
       tree_set TRange path [] (mk_world t sample_ctx) = (Throw (runtime_error what), w')
       ∧ context w' = sample_ctx
       ∧ stored_at TRange (tree w') path = Some [])
  ∧ (∃ w1 w' : world,
       _init_mpm_sensors (C := sample_collaborators) RX_DIRECTION 0 (mk_world ∅ sample_ctx)
       = (Ok tt, w1)
       ∧ tree_set TSensor sensor reading (mk_world (tree w1) sample_ctx)
         = (Throw (runtime_error "Attempting to write to sensor!"), w')
       ∧ context w' = sample_ctx
       ∧ stored_at TSensor (tree w') sensor = Some reading)
  ∧ fst (_init_mpm_sensors (C := offline_collaborators) RX_DIRECTION 0
           (mk_world ∅ offline_ctx))
    = Throw (CommunicationError "timeout")
  ∧ (∃ (what : string) (w' : world),
       tree_set TRange path [] (mk_world t_offline offline_ctx)
       = (Throw (runtime_error what), w')
       ∧ context w' = offline_ctx
       ∧ stored_at TRange (tree w') path = Some []).
Proof.
  intros t t_offline path sensor reading.
  assert (H1 : (["tx_frontends"; "0"; "freq"; "range"], TRange)
                 ∈ read_only_nodes (K := sample_constants) 0).
  { unfold read_only_nodes. simpl. do 2 apply list_elem_of_further. apply list_elem_of_here. }
  assert (H3 : "temperature" ∈ ["temperature"]) by apply list_elem_of_here.
  destruct (read_only_write_throws_after_store (K := sample_constants)
              (C := sample_collaborators)) as [Hfrontend Hsensor].
  destruct (read_only_write_throws_after_store (K := sample_constants)
              (C := offline_collaborators)) as [Hoffline _].
  split; [exact H1|]. split; [exact H3|].
  split; [exact (Hfrontend ["dboards"; "A"] 0 ∅ sample_ctx
                   ["tx_frontends"; "0"; "freq"; "range"] TRange [] H1)|].
  split; [exact (Hsensor (mk_world ∅ sample_ctx) RX_DIRECTION 0 ["temperature"] _
                   "temperature" reading sample_ctx eq_refl H3)|].
  split; [reflexivity|].
  exact (Hoffline ["dboards"; "A"] 0 ∅ offline_ctx
           ["tx_frontends"; "0"; "freq"; "range"] TRange [] H1).
Defined.

(** C3 on the sample controller, channel 0 below dboards/A. *)
Lemma tx_lo1_freq_value_created_with_trailing_space_witness :
  let t' := _init_frontend_subtree (K := sample_constants) (C := sample_collaborators)
              ["dboards"; "A"] 0 ∅ in
  tree_exists t' ["dboards"; "A"; "tx_frontends"; "0"; "los"; "lo1"; "freq"; "value"] = false
  ∧ tree_exists t' ["dboards"; "A"; "tx_frontends"; "0"; "los"; "lo1"; "freq"; "value "] = true
  ∧ tree_exists t' ["dboards"; "A"; "rx_frontends"; "0"; "los"; "lo1"; "freq"; "value"] = true.
Proof.
  intros t'.
  assert (Hlo : RHODIUM_LO1 (rhodium_constants := sample_constants)
                ≠ RHODIUM_LO2 (rhodium_constants := sample_constants))
    by (simpl; discriminate).
  destruct (tx_lo1_freq_value_created_with_trailing_space
              (K := sample_constants) (C := sample_collaborators)
              ["dboards"; "A"] 0 ∅ Hlo (lookup_empty _)) as (H1 & _ & _ & H4 & H5).
  split; [exact H4|]. split; [exact H5|exact H1].
Defined.

(** C4: with a receive MTU of 2^33 + 32 bytes the quotient is 2^31, and the
    [int] written to the spp node is -2^31. *)
Lemma default_spp_narrowed_to_int :
  let w := mk_world (sample_block_tree 8589934624 364) sample_ctx in
  let written := stored_at TInt (tree (snd (_init_defaults (K := sample_constants) w)))
                   ["args"; "0"; "spp"; "value"] in
  written = Some (-2147483648)%Z
  ∧ ((8589934624 - 4 * 8) / (2 * 2))%Z = 2147483648%Z
  ∧ written ≠ Some ((8589934624 - 4 * 8) / (2 * 2))%Z.
Proof. vm_compute. repeat split; discriminate. Qed.

(** C4 on the literal inputs of the spec: a receive MTU of 8000 bytes, four
    header words and an spp of 364 loaded before give 1992. *)
Lemma default_spp_overrides_loaded_default_witness :
  stored_at TInt
    (tree (snd (_init_defaults (K := sample_constants)
                  (mk_world (sample_block_tree 8000 364) sample_ctx))))
    ["args"; "0"; "spp"; "value"]
  = Some 1992%Z.
Proof.
  refine (default_spp_overrides_loaded_default (K := sample_constants)
            (C := sample_collaborators)
            (mk_world (sample_block_tree 8000 364) sample_ctx) 8000
            (new_property |.> store 8000%Z) (new_property |.> store 364%Z)
            _ eq_refl eq_refl _ eq_refl _ _ _).
  - apply lookup_insert_eq.
  - simpl. unfold sample_block_tree, create. rewrite lookup_insert_ne by discriminate.
    apply lookup_insert_eq.
  - simpl. lia.
  - simpl. lia.
  - vm_compute. reflexivity.
Defined.

(** C5 on the sample controller: the profile name agc written to TX
    channel 0. *)
Lemma gain_profile_unrecognized_is_default_witness :
  let path := ["dboards"; "A"; "tx_frontends"; "0"; "gains"; "all"; "profile"; "value"] in
  let w := mk_world (_init_frontend_subtree (K := sample_constants)
                       (C := sample_collaborators) ["dboards"; "A"] 0 ∅) sample_ctx in
  ("agc" ∉ RHODIUM_GP_OPTIONS)
  ∧ (∃ w' : world,
       tree_set TString path "agc" w = (Ok tt, w')
       ∧ _gain_profile (this (context w')) !! TX_DIRECTION = Some "default"
       ∧ tree_get TString path w' = (Ok "default", w')).
Proof.
  intros path w.
  assert (H : "agc" ∉ RHODIUM_GP_OPTIONS).
  { unfold RHODIUM_GP_OPTIONS. intros Hin. apply list_elem_of_singleton in Hin. discriminate. }
  split; [exact H|].
  destruct (gain_profile_unrecognized_is_default (K := sample_constants)
              (C := sample_collaborators) TX_DIRECTION ["dboards"; "A"] 0 ∅ sample_ctx
              "agc" H) as (w' & _ & H2 & H3 & _ & H5 & _).
  exists w'. split; [exact H2|]. split; [exact H3|exact H5].
Defined.

(** The controller of [gain_collaborators] meets the two assumptions on the
    gain setters. *)
Lemma gain_collaborators_setters_modelled :
  gain_setters_modelled (K := sample_constants) (C := gain_collaborators).
Proof.
  intros gain chan [[txf rxf txg rxg txa rxa txb rxb] slot pre root clk prof h].
  split.
  - cbv [handler gain_collaborators gain_handler rhodium_set_gain bind stored_gain
         call_base radio_ctrl_impl.get_tx_gain radio_ctrl_impl.set_tx_gain fst snd this
         base radio_ctrl_impl._tx_gain].
    destruct (txg !! chan);
      match goal with
      | |- context [negb (PrimFloat.eqb ?a ?b)] => destruct (PrimFloat.eqb a b)
      end; reflexivity.
  - cbv [handler gain_collaborators gain_handler rhodium_set_gain bind stored_gain
         call_base radio_ctrl_impl.get_rx_gain radio_ctrl_impl.set_rx_gain fst snd this
         base radio_ctrl_impl._rx_gain].
    destruct (rxg !! chan);
      match goal with
      | |- context [negb (PrimFloat.eqb ?a ?b)] => destruct (PrimFloat.eqb a b)
      end; reflexivity.
Qed.

Lemma gain_collaborators_others_keep_gains :
  others_keep_gains (C := gain_collaborators).
Proof.
  intros m o dir chan Hm. destruct m; try discriminate Hm; reflexivity.
Qed.

(** C6: after default initialisation and a complete bring-up of a controller
    whose gain setters are the modelled setter, the stored TX gain of
    channel 0 is 0, not the sentinel: the hardware was written twice, by the
    bring-up, and the first explicit gain set, of gain 0, returns 0 with no
    call made and the hardware untouched. *)
Lemma stored_gain_after_bring_up_is_not_sentinel :
  let w := mk_world gain_block_tree gain_ctx in
  let w2 := snd (_init_defaults (K := sample_constants) w) in
  let c2 := snd (_init_peripherals (K := sample_constants) (context w2)) in
  fst (_init_defaults (K := sample_constants) w) = Ok tt
  ∧ fst (_init_peripherals (K := sample_constants) (context w2)) = Ok tt
  ∧ gain_of TX_DIRECTION (base (this c2)) 0 = Some 0%float
  ∧ gain_of TX_DIRECTION (base (this c2)) 0 ≠ Some RHODIUM_DEFAULT_INVALID_GAIN
  ∧ hw (this c2) = [(0%float, TX_DIRECTION); (0%float, RX_DIRECTION)]
  ∧ fst (rhodium_set_gain (K := sample_constants) TX_DIRECTION 0%float 0 c2) = Ok 0%float
  ∧ trace (snd (rhodium_set_gain (K := sample_constants) TX_DIRECTION 0%float 0 c2))
    = trace c2
  ∧ hw (this (snd (rhodium_set_gain (K := sample_constants) TX_DIRECTION 0%float 0 c2)))
    = hw (this c2).
Proof.
  vm_compute.
  split; [reflexivity|]. split; [reflexivity|]. split; [reflexivity|].
  split; [intros E; discriminate E|].
  split; [reflexivity|]. split; [reflexivity|]. split; reflexivity.
Qed.

(** C6 on a controller whose gain setters are the modelled setter, with
    gains from 0 to 60 and two channels: a first TX gain of 17.5 on channel
    1, after default initialisation and after the bring-up that follows
    it; and the TX gain of channel 0 after that bring-up. *)
Lemma first_gain_write_reaches_hardware_witness :
  let w := mk_world gain_block_tree gain_ctx in
  let c1 := context (snd (_init_defaults (K := sample_constants) w)) in
  let c2 := snd (_init_peripherals (K := sample_constants) c1) in
  (∃ w1 : world,
     _init_defaults (K := sample_constants) w = _init_defaults_spp (K := sample_constants) w1
     ∧ gain_of TX_DIRECTION (base_of w1) 1 = Some (-1)%float)
  ∧ gain_of TX_DIRECTION (base (this c1)) 1 = Some (-1)%float
  ∧ trace (snd (rhodium_set_gain (K := sample_constants) TX_DIRECTION 17.5%float 1 c1))
    = trace c1 ++ [_cpld_set_gain_index 17.5%float TX_DIRECTION]
  ∧ _init_peripherals (K := sample_constants) c1 = (Ok tt, c2)
  ∧ (∃ s : double,
       gain_of TX_DIRECTION (base (this c2)) 0 = Some s
       ∧ s ≠ (-1)%float
       ∧ rhodium_set_gain (K := sample_constants) TX_DIRECTION 0%float 0 c2
         = (Ok 0%float, c2))
  ∧ gain_of TX_DIRECTION (base (this c2)) 1 = Some (-1)%float
  ∧ trace (snd (rhodium_set_gain (K := sample_constants) TX_DIRECTION 17.5%float 1 c2))
    = trace c2 ++ [_cpld_set_gain_index 17.5%float TX_DIRECTION].
Proof.
  intros w c1 c2.
  assert (Hsentinel : gain_of TX_DIRECTION (base (this c1)) 1 = Some (-1)%float)
    by (vm_compute; reflexivity).
  assert (Hrun : _init_peripherals (K := sample_constants) c1 = (Ok tt, c2))
    by (vm_compute; reflexivity).
  destruct (first_gain_write_reaches_hardware (K := sample_constants)
              (C := gain_collaborators)) as (Hdefaults & Hfirst & Hbringup).
  destruct (Hdefaults w TX_DIRECTION 1 ltac:(simpl; lia)) as (w1 & H1 & H2 & _).
  destruct (Hfirst TX_DIRECTION 1 17.5%float c1 eq_refl eq_refl Hsentinel) as (_ & H3 & _).
  destruct (Hbringup gain_collaborators_setters_modelled gain_collaborators_others_keep_gains
              TX_DIRECTION c1 c2 Hrun) as [Hframe Hzero].
  assert (Hkept : gain_of TX_DIRECTION (base (this c2)) 1 = Some (-1)%float)
    by (rewrite (Hframe 1 ltac:(lia)); exact Hsentinel).
  destruct (Hfirst TX_DIRECTION 1 17.5%float c2 eq_refl eq_refl Hkept) as (_ & H4 & _).
  split; [exists w1; split; [exact H1|exact H2]|].
  split; [exact Hsentinel|]. split; [exact H3|]. split; [exact Hrun|].
  split; [exact (Hzero eq_refl eq_refl)|]. split; [exact Hkept|exact H4].
Defined.

(** C7 on the sample controller: the tick rate node, and the temperature
    sensor of RX channel 0, read from the state in which no request has
    been served yet; and the tick rate node of a controller whose discovery
    of the sensors throws. *)
Lemma published_reads_are_fresh_witness :
  let tick := create (C := sample_collaborators) TDouble ["tick_rate"]
                (new_property |.> set_publisher (invoke get_rate)) ∅ in
  let tick_offline := create (C := offline_collaborators) TDouble ["tick_rate"]
                        (new_property |.> set_publisher (invoke get_rate)) ∅ in
  let sensor := ["dboards"; "A"; "rx_frontends"; "0"; "sensors"; "temperature"] in
  let request := request_with_token_sensor_map "db_0_get_sensor"
                   [arg_string "RX"; arg_string "temperature"; arg_size_t 0] in
  tree_get TDouble ["tick_rate"] (mk_world tick sample_ctx)
  = lift (invoke get_rate) (mk_world tick sample_ctx)
  ∧ (∃ w1 : world,
       _init_mpm_sensors (C := sample_collaborators) RX_DIRECTION 0 (mk_world ∅ sample_ctx)
       = (Ok tt, w1)
       ∧ stored_at TSensor (tree w1) sensor = None
       ∧ fst (tree_get TSensor sensor (mk_world (tree w1) sample_ctx))
         = Ok (sensor_of_map [("value", "0")])
       ∧ trace (context (snd (tree_get TSensor sensor (mk_world (tree w1) sample_ctx))))
         = [request])
  ∧ fst (_init_mpm_sensors (C := offline_collaborators) RX_DIRECTION 0
           (mk_world ∅ offline_ctx))
    = Throw (CommunicationError "timeout")
  ∧ tree_get TDouble ["tick_rate"] (mk_world tick_offline offline_ctx)
    = lift (invoke get_rate) (mk_world tick_offline offline_ctx).
Proof.
  intros tick tick_offline sensor request.
  destruct (published_reads_are_fresh (C := sample_collaborators)) as [Hpublished Hsensor].
  destruct (published_reads_are_fresh (C := offline_collaborators)) as [Hoffline _].
  destruct (Hpublished TDouble ["tick_rate"] tick sample_ctx
              (new_property |.> set_publisher (invoke get_rate)) (invoke get_rate)
              (lookup_insert_eq _ _ _) eq_refl) as (H1 & _ & _).
  destruct (Hsensor (mk_world ∅ sample_ctx) RX_DIRECTION 0 ["temperature"] _ "temperature"
              sample_ctx eq_refl (list_elem_of_here _ _)) as (w1 & H2 & H3 & H4).
  destruct (Hoffline TDouble ["tick_rate"] tick_offline offline_ctx
              (new_property |.> set_publisher (invoke get_rate)) (invoke get_rate)
              (lookup_insert_eq _ _ _) eq_refl) as (H5 & _ & _).
  split; [exact H1|]. split.
  - exists w1. split; [exact H2|]. split; [exact H3|].
    cbv zeta in H4. split.
    + exact (f_equal fst H4).
    + exact (f_equal (λ r, trace (context (snd r))) H4).
  - split; [reflexivity|exact H5].
Defined.

(** C8: in the complete run of the sample controller the first gain write
    is the third call, and both oscillator synthesizers are instantiated
    after it, as the seventh and the tenth call. *)
Lemma initial_gain_writes_precede_oscillators :
  let tr := trace (snd (_init_peripherals (K := sample_constants) sample_ctx)) in
  tr !! 2%nat = Some (set_tx_gain RHODIUM_DEFAULT_GAIN 0)
  ∧ tr !! 6%nat
    = Some (lmx2592_iface_make
              (_generate_write_spi this_spi SEN_TX_LO _get_tx_lo_spi_config)
              (_generate_read_spi this_spi SEN_TX_LO _get_tx_lo_spi_config))
  ∧ tr !! 9%nat
    = Some (lmx2592_iface_make
              (_generate_write_spi this_spi SEN_RX_LO _get_rx_lo_spi_config)
              (_generate_read_spi this_spi SEN_RX_LO _get_rx_lo_spi_config))
  ∧ ¬ (∀ (i j : nat) (a b : method),
         tr !! i = Some a → tr !! j = Some b →
         is_gain_write a = true → is_oscillator_make b = true → (j < i)%nat).
Proof.
  intros tr.
  assert (H2 : tr !! 2%nat = Some (set_tx_gain RHODIUM_DEFAULT_GAIN 0)) by reflexivity.
  assert (H6 : tr !! 6%nat
               = Some (lmx2592_iface_make
                         (_generate_write_spi this_spi SEN_TX_LO _get_tx_lo_spi_config)
                         (_generate_read_spi this_spi SEN_TX_LO _get_tx_lo_spi_config)))
    by reflexivity.
  split; [exact H2|]. split; [exact H6|]. split; [reflexivity|].
  intros H. specialize (H 2%nat 6%nat _ _ H2 H6 eq_refl eq_refl). lia.
Qed.

(** C9 on the sample controller, channel 0 below dboards/A. *)
Lemma tx_lo1_freq_range_publishes_rx_range_witness :
  let w := mk_world (_init_frontend_subtree (K := sample_constants)
                       (C := sample_collaborators) ["dboards"; "A"] 0 ∅) sample_ctx in
  tree_get TRange ["dboards"; "A"; "tx_frontends"; "0"; "los"; "lo1"; "freq"; "range"] w
  = lift (invoke (get_rx_lo_freq_range "lo1" 0)) w
  ∧ tree_get TRange ["dboards"; "A"; "tx_frontends"; "0"; "los"; "lo2"; "freq"; "range"] w
    = lift (invoke (get_tx_lo_freq_range "lo2" 0)) w.
Proof.
  intros w.
  assert (Hlo : RHODIUM_LO1 (rhodium_constants := sample_constants)
                ≠ RHODIUM_LO2 (rhodium_constants := sample_constants))
    by (simpl; discriminate).
  destruct (tx_lo1_freq_range_publishes_rx_range (K := sample_constants)
              (C := sample_collaborators) ["dboards"; "A"] 0 ∅ sample_ctx Hlo)
    as (H1 & H2 & _).
  split; [exact H1|exact H2].
Defined.

(** ** The further properties on the sample parameters *)

(** X1 on the sample controller: wiring channel 0 below dboards/A creates no
    tick_rate node. *)
Lemma frontend_subtree_creates_only_below_its_channel_witness :
  _init_frontend_subtree (K := sample_constants) (C := sample_collaborators)
    ["dboards"; "A"] 0 ∅ !! ["tick_rate"] = None
  ∧ tree_exists (_init_frontend_subtree (K := sample_constants) (C := sample_collaborators)
                   ["dboards"; "A"] 0 ∅) ["tick_rate"] = false.
Proof.
  assert (Hout : ∀ (dir : direction_t) (rest : fs_path),
            ["tick_rate"] ≠ ["dboards"; "A"] ++ frontend_path dir 0 ++ rest)
    by (intros dir rest E; discriminate E).
  destruct (frontend_subtree_creates_only_below_its_channel (K := sample_constants)
              (C := sample_collaborators) ["dboards"; "A"] 0 ∅ ["tick_rate"] Hout)
    as [H1 H2].
  split; [exact H1|exact H2].
Defined.

(** X2 on the sample constants, whose names are distinct. *)
Lemma frontend_subtree_creates_56_nodes_witness :
  size (_init_frontend_subtree (K := sample_constants) (C := sample_collaborators)
          ["dboards"; "A"] 0 ∅) = 56%nat.
Proof.
  apply (frontend_subtree_creates_56_nodes (K := sample_constants)
           (C := sample_collaborators) ["dboards"; "A"] 0); simpl; discriminate.
Defined.


(** X7 on the controller whose peripheral manager does not answer. *)
Lemma mpm_sensors_discovery_failure_witness :
  _init_mpm_sensors (C := offline_collaborators) RX_DIRECTION 0 (mk_world ∅ offline_ctx)
  = (Throw (CommunicationError "timeout"),
     mk_world ∅
       (@mk_ctx offline_collaborators sample_object
          [request_with_token_strings "db_0_get_sensors" [arg_string "RX"]])).
Proof.
  exact (mpm_sensors_discovery_failure (C := offline_collaborators) RX_DIRECTION 0
           (mk_world ∅ offline_ctx) (CommunicationError "timeout") sample_object eq_refl).
Defined.

(** X8 on the sample controller, whose peripheral manager reports one
    sensor: the tick_rate node is left alone. *)
Lemma mpm_sensors_creates_only_sensor_nodes_witness :
  let tick := create (C := sample_collaborators) TDouble ["tick_rate"]
                (new_property |.> set_publisher (invoke get_rate)) ∅ in
  ∃ t' : gmap (list string) {T : ty & property (C := sample_collaborators) (denote T)},
    fst (_init_mpm_sensors (C := sample_collaborators) RX_DIRECTION 0
           (mk_world tick sample_ctx)) = Ok tt
    ∧ tree (snd (_init_mpm_sensors (C := sample_collaborators) RX_DIRECTION 0
                   (mk_world tick sample_ctx))) = t'
    ∧ t' !! ["tick_rate"] = tick !! ["tick_rate"]
    ∧ is_Some (t' !! ["dboards"; "A"; "rx_frontends"; "0"; "sensors"; "temperature"]).
Proof.
  intros tick.
  destruct (mpm_sensors_creates_only_sensor_nodes (C := sample_collaborators) RX_DIRECTION 0
              (mk_world tick sample_ctx) ["temperature"] _ eq_refl)
    as (t' & Hrun & Hnode & Hframe & _).
  exists t'. rewrite Hrun. split; [reflexivity|]. split; [reflexivity|]. split.
  - apply Hframe. intros name Hin E. discriminate E.
  - eexists. apply (Hnode "temperature"). apply list_elem_of_here.
Defined.

(** X11 on the sample controller with an empty tree. *)
Lemma defaults_stored_before_missing_mtu_witness :
  fst (_init_defaults (K := sample_constants) (mk_world ∅ sample_ctx))
  = Throw (NoSuchPathError ["mtu"; "recv"])
  ∧ gain_of TX_DIRECTION
      (base_of (snd (_init_defaults (K := sample_constants) (mk_world ∅ sample_ctx)))) 0
    = Some (-1)%float.
Proof.
  destruct (defaults_stored_before_missing_mtu (K := sample_constants)
              (C := sample_collaborators) (mk_world ∅ sample_ctx) (lookup_empty _))
    as (H1 & _ & _ & _ & H5).
  split; [exact H1|]. exact (H5 TX_DIRECTION 0%nat ltac:(simpl; lia)).
Defined.

(** X12 on the literal inputs of the spec: 1992 samples fit in 8000 bytes
    with 32 bytes of header, 1993 do not. *)
Lemma default_spp_is_largest_fitting_witness :
  (4 * 8 + 4 * 1992 ≤ 8000 < 4 * 8 + 4 * (1992 + 1))%Z
  ∧ default_spp (K := sample_constants) 8000 = 1992%Z.
Proof.
  destruct (default_spp_is_largest_fitting (K := sample_constants) 8000
              ltac:(simpl; lia) ltac:(simpl; lia)) as [H _].
  split; [exact H|reflexivity].
Defined.

(** X13 with a receive MTU of 17 bytes and 32 bytes of header: the value
    written is -4. *)
Lemma default_spp_negative_below_header_witness :
  to_int (default_spp (K := sample_constants) 17) = (-4)%Z.
Proof.
  destruct (default_spp_negative_below_header (K := sample_constants) 17
              ltac:(simpl; lia) ltac:(simpl; lia) ltac:(simpl; lia)) as (_ & H & _).
  exact H.
Defined.
